(** * Habit tracker: statistics and persistence engine

    A shallow embedding of the engine of the habit tracker
    (hooks/useHabits, hooks/useLocalStorage as inlined in App.tsx,
    utils/dateUtils) together with the properties its specification
    states about it.

    Conventions of the embedding.
    - A JavaScript [Date] is its time value: the number of milliseconds
      since the epoch, in UTC, as a [Z].  The clock and the time zone of
      the host are explicit arguments.
    - A [Record<string, boolean>] is a [gmap string bool].  The property
      read [o[k]] is the lookup of the own property [k]; its truthiness is
      [Some true].  The keys are day identifiers, and no property that an
      object inherits is named like one.  Strings are byte strings,
      compared byte by byte.
    - A number that holds a count or a clock reading is a [Z]; the
      completion rate, a quotient, is an exact rational. *)

From Stdlib Require Import ZArith QArith Lia Ascii.
From stdpp Require Import gmap strings list fin_maps sorting pretty.
From Equations Require Import Equations.

(** ** The built-in [Date] object *)

Module JSDate.
Local Open Scope Z_scope.

Definition msPerDay : Z := 86400000.
Definition msPerHour : Z := 3600000.
Definition msPerMinute : Z := 60000.
Definition msPerSecond : Z := 1000.

Definition Day (t : Z) : Z := t `div` msPerDay.
Definition TimeWithinDay (t : Z) : Z := t `mod` msPerDay.

Definition DaysInYear (y : Z) : Z :=
  if negb (y `mod` 4 =? 0) then 365
  else if negb (y `mod` 100 =? 0) then 366
  else if negb (y `mod` 400 =? 0) then 365
  else 366.

Definition DayFromYear (y : Z) : Z :=
  365 * (y - 1970) + (y - 1969) `div` 4 - (y - 1901) `div` 100
  + (y - 1601) `div` 400.

(** The largest [y] whose first day is not after [t]: the mean length of a
    Gregorian year gives an estimate that is off by at most one. *)
Definition YearFromTime (t : Z) : Z :=
  let d := Day t in
  let y := 1970 + (400 * d) `div` 146097 in
  if d <? DayFromYear y then y - 1
  else if DayFromYear (y + 1) <=? d then y + 1
  else y.

Definition InLeapYear (t : Z) : Z :=
  if DaysInYear (YearFromTime t) =? 366 then 1 else 0.

Definition DayWithinYear (t : Z) : Z := Day t - DayFromYear (YearFromTime t).

(** Number of days of the year before month [m] (0 = January). *)
Definition monthStart (m leap : Z) : Z :=
  match m with
  | 0 => 0
  | 1 => 31
  | 2 => 59 + leap
  | 3 => 90 + leap
  | 4 => 120 + leap
  | 5 => 151 + leap
  | 6 => 181 + leap
  | 7 => 212 + leap
  | 8 => 243 + leap
  | 9 => 273 + leap
  | 10 => 304 + leap
  | _ => 334 + leap
  end.

Definition MonthFromTime (t : Z) : Z :=
  let d := DayWithinYear t in
  let l := InLeapYear t in
  if d <? 31 then 0
  else if d <? 59 + l then 1
  else if d <? 90 + l then 2
  else if d <? 120 + l then 3
  else if d <? 151 + l then 4
  else if d <? 181 + l then 5
  else if d <? 212 + l then 6
  else if d <? 243 + l then 7
  else if d <? 273 + l then 8
  else if d <? 304 + l then 9
  else if d <? 334 + l then 10
  else 11.

Definition DateFromTime (t : Z) : Z :=
  DayWithinYear t - monthStart (MonthFromTime t) (InLeapYear t) + 1.

Definition HourFromTime (t : Z) : Z := (t `div` msPerHour) `mod` 24.
Definition MinFromTime (t : Z) : Z := (t `div` msPerMinute) `mod` 60.
Definition SecFromTime (t : Z) : Z := (t `div` msPerSecond) `mod` 60.
Definition msFromTime (t : Z) : Z := t `mod` msPerSecond.

(** [MakeDay]: the day number of the first of the month, plus [date - 1].
    Months and dates out of range carry over, as in ECMAScript. *)
Definition MakeDay (year month date : Z) : Z :=
  let ym := year + month `div` 12 in
  let mn := month `mod` 12 in
  let leap := if DaysInYear ym =? 366 then 1 else 0 in
  DayFromYear ym + monthStart mn leap + date - 1.

Definition MakeDate (day time : Z) : Z := day * msPerDay + time.

(** The host's time zone: [LocalTZA t true] is the offset of local time
    from UTC in force at the UTC instant [t]; [LocalTZA tl false] is the
    offset used to read the local time value [tl] back as an instant
    (at a repeated or skipped local time, the offset before the
    transition). *)
Record TimeZone := { LocalTZA : Z → bool → Z }.

Definition LocalTime (tz : TimeZone) (t : Z) : Z := t + LocalTZA tz t true.
Definition UTC (tz : TimeZone) (tl : Z) : Z := tl - LocalTZA tz tl false.

(** [d.getDate()] and the time value after [d.setDate(dt)]. *)
Definition getDate (tz : TimeZone) (t : Z) : Z := DateFromTime (LocalTime tz t).

Definition setDate (tz : TimeZone) (t dt : Z) : Z :=
  let tl := LocalTime tz t in
  UTC tz (MakeDate (MakeDay (YearFromTime tl) (MonthFromTime tl) dt)
                   (TimeWithinDay tl)).

(** Decimal digits of a natural number, left-padded with zeros. *)
Definition pad (width : nat) (n : Z) : string :=
  let s := pretty (Z.to_N n) in
  String.concat "" (replicate (width - String.length s) "0"%string) +:+ s.

Definition isoYear (y : Z) : string :=
  if (0 <=? y) && (y <=? 9999) then pad 4 y
  else if y <? 0 then "-" +:+ pad 6 (- y)
  else "+" +:+ pad 6 y.

(** [d.toISOString()]: the UTC fields, [YYYY-MM-DDTHH:mm:ss.sssZ]. *)
Definition toISOString (t : Z) : string :=
  isoYear (YearFromTime t) +:+ "-" +:+ pad 2 (MonthFromTime t + 1) +:+ "-"
  +:+ pad 2 (DateFromTime t) +:+ "T" +:+ pad 2 (HourFromTime t) +:+ ":"
  +:+ pad 2 (MinFromTime t) +:+ ":" +:+ pad 2 (SecFromTime t) +:+ "."
  +:+ pad 3 (msFromTime t) +:+ "Z".

(** A time zone with one fixed offset, and one with a single transition
    at the instant [at_] from offset [before] to offset [after]. *)
Definition fixedZone (offset : Z) : TimeZone := {| LocalTZA := λ _ _, offset |}.

Definition transitionZone (at_ before after : Z) : TimeZone :=
  {| LocalTZA := λ t isUTC,
       if isUTC then (if t <? at_ then before else after)
       else (if t <? at_ + Z.max before after then before else after) |}.

End JSDate.

Import JSDate.

(** ** Built-ins on strings, numbers and objects *)

(** [s.split(c)] for a one-character separator [c]. *)
Fixpoint String_split (c : Ascii.ascii) (s : string) : list string :=
  match s with
  | EmptyString => [EmptyString]
  | String a s' =>
      if decide (a = c) then EmptyString :: String_split c s'
      else match String_split c s' with
           | [] => [String a EmptyString]
           | p :: ps => String a p :: ps
           end
  end.

(** [n.toString()] for an integral number (below 1e21 in magnitude, where
    JavaScript switches to exponent notation). *)
Definition Number_toString (n : Z) : string := pretty n.

(** Truthiness of a property read [o[k]] of a [Record<string, boolean>]:
    an absent property reads [undefined], which is falsy. *)
Definition truthy (v : option bool) : bool :=
  match v with
  | Some b => b
  | None => false
  end.

(** [Object.keys] and [Object.values] enumerate the own properties in one
    common order.  The engine only sorts or counts what they return. *)
Definition Object_keys (o : gmap string bool) : list string := (map_to_list o).*1.
Definition Object_values (o : gmap string bool) : list bool := (map_to_list o).*2.

(** [a.sort()] on an array of strings: ascending in the order of the code
    units. *)
Definition string_le (s1 s2 : string) : Prop := String.leb s1 s2 = true.

#[global] Instance string_le_dec : RelDecision string_le.
Proof. intros s1 s2. unfold string_le. apply _. Defined.

Definition Array_sort (a : list string) : list string := merge_sort string_le a.

(** ** utils/dateUtils *)

Definition formatDate (date : Z) : string :=
  default ""%string (head (String_split "T"%char (toISOString date))).

(** The loop of [getDateRange]: [i] runs from [days - 1] down to [0]. *)
Equations? getDateRange_loop (tz : TimeZone) (today : Z) (i : Z) (dates : list Z)
  : list Z by wf (Z.to_nat (i + 1)) lt :=
  getDateRange_loop tz today i dates with decide (0 ≤ i)%Z := {
    | left _ =>
        let date := setDate tz today (getDate tz today - i) in
        getDateRange_loop tz today (i - 1) (dates ++ [date]);
    | right _ => dates }.
Proof. lia. Qed.

Definition getDateRange (tz : TimeZone) (now : Z) (days : Z) : list Z :=
  getDateRange_loop tz now (days - 1) [].

Definition isToday (now : Z) (date : Z) : bool :=
  bool_decide (formatDate date = formatDate now).

(** The calendar utilities of the specification: the identifier of the
    current day, and the identifiers of the last [n] days. *)
Definition today (now : Z) : string := formatDate now.

Definition dayRange (tz : TimeZone) (now : Z) (n : Z) : list string :=
  formatDate <$> getDateRange tz now n.

(** ** types/habit *)

Record Habit := mkHabit {
  id : string;
  name : string;
  emoji : string;
  color : string;
  createdAt : string;
  completions : gmap string bool;
}.

Record HabitStats := mkHabitStats {
  currentStreak : Z;
  longestStreak : Z;
  completionRate : Q;
  totalCompletions : Z;
}.

(** The condition [habit.completions[date]]. *)
Definition completed (habit : Habit) (date : string) : bool :=
  truthy (completions habit !! date).

(** ** hooks/useHabits

    Each operation is the updater it hands to [setHabits]: a function from
    the previous collection to the next one.  The clock readings of
    [addHabit] ([Date.now()] for the id, [new Date()] for [createdAt]) are
    arguments. *)

Definition addHabit (idClock createdClock : Z) (name emoji color : string)
    (prev : list Habit) : list Habit :=
  let newHabit :=
    {| id := Number_toString idClock;
       name := name;
       emoji := emoji;
       color := color;
       createdAt := formatDate createdClock;
       completions := ∅ |} in
  prev ++ [newHabit].

Definition deleteHabit (id' : string) (prev : list Habit) : list Habit :=
  filter (λ habit, id habit ≠ id') prev.

Definition toggleCompletion (habitId date : string) (prev : list Habit)
    : list Habit :=
  (λ habit,
     if decide (id habit = habitId)
     then {| id := id habit;
             name := name habit;
             emoji := emoji habit;
             color := color habit;
             createdAt := createdAt habit;
             completions :=
               <[date := negb (completed habit date)]>
                 (completions habit) |}
     else habit) <$> prev.

(** The loop of [calculateStreak]: [i] starts at [0] and is decremented
    after every iteration, also after [continue]. *)
Equations? calculateStreak_loop (tz : TimeZone) (today : Z) (habit : Habit)
    (i : Z) (streak : Z) : Z by wf (Z.to_nat (i + 1)) lt :=
  calculateStreak_loop tz today habit i streak with decide (0 ≤ i)%Z := {
    | right _ => streak
    | left _ with completed habit
                    (formatDate (setDate tz today (getDate tz today - i))) := {
        | true => calculateStreak_loop tz today habit (i - 1) (streak + 1)
        | false with decide (i = 0%Z) := {
          | left _ => calculateStreak_loop tz today habit (i - 1) streak
          | right _ => streak } } }.
Proof. all: lia. Qed.

Definition calculateStreak (tz : TimeZone) (now : Z) (habit : Habit) : Z :=
  calculateStreak_loop tz now habit 0 0.

(** One iteration of the longest-streak scan; the state is
    [(longestStreak, tempStreak)]. *)
Definition longestStreak_step (habit : Habit) (st : Z * Z) (date : string)
    : Z * Z :=
  if completed habit date
  then (Z.max st.1 (st.2 + 1), st.2 + 1)%Z
  else (st.1, 0%Z).

Definition getHabitStats (tz : TimeZone) (now : Z) (habit : Habit) : HabitStats :=
  let completions' :=
    Z.of_nat (length (filter (λ b, b = true) (Object_values (completions habit)))) in
  let totalDays := Z.of_nat (length (Object_keys (completions habit))) in
  let currentStreak := calculateStreak tz now habit in
  let sortedDates := Array_sort (Object_keys (completions habit)) in
  let longestStreak := (foldl (longestStreak_step habit) (0%Z, 0%Z) sortedDates).1 in
  {| currentStreak := currentStreak;
     longestStreak := longestStreak;
     completionRate :=
       if (0 <? totalDays)%Z
       then ((inject_Z completions' / inject_Z totalDays) * inject_Z 100)%Q
       else inject_Z 0;
     totalCompletions := completions' |}.

(** The repository as a transition system: the calls of its interface
    (section 6 of the specification), each applied to the collection the
    previous one left.  [hooks/useHabits] also returns [updateHabit],
    which overwrites the fields it is given and which no component
    calls; it is not part of that interface. *)
Inductive Op :=
| OpAdd (idClock createdClock : Z) (name emoji color : string)
| OpDelete (id' : string)
| OpToggle (habitId date : string).

Definition step (habits : list Habit) (op : Op) : list Habit :=
  match op with
  | OpAdd idClock createdClock name emoji color =>
      addHabit idClock createdClock name emoji color habits
  | OpDelete id' => deleteHabit id' habits
  | OpToggle habitId date => toggleCompletion habitId date habits
  end.

Definition run (ops : list Op) (habits : list Habit) : list Habit :=
  foldl step habits ops.

(** The [Date.now()] readings taken by the [addHabit] calls of a run. *)
Definition idClocks (ops : list Op) : list Z :=
  omap (λ op, match op with OpAdd idClock _ _ _ _ => Some idClock | _ => None end) ops.

(** ** The built-in [JSON.parse]

    Values are kept as syntax trees; a number is kept as the decimal
    [mantissa * 10 ^ exponent] it is written as, a string as the bytes of
    its code units. *)

#[local] Set Warnings "-register-all".
Inductive JSValue :=
| JNull
| JBool (b : bool)
| JNumber (mantissa exponent : Z)
| JString (s : string)
| JArray (elements : list JSValue)
| JObject (members : list (string * JSValue)).

Module JSON.

Definition code (a : ascii) : Z := Z.of_nat (nat_of_ascii a).
Definition char (n : Z) : ascii := ascii_of_nat (Z.to_nat n).

Definition is_ws (a : ascii) : bool :=
  bool_decide (code a ∈ [32; 9; 10; 13]%Z).
Definition is_digit (a : ascii) : bool :=
  (48 <=? code a)%Z && (code a <=? 57)%Z.

Fixpoint skip_ws (s : string) : string :=
  match s with
  | String a s' => if is_ws a then skip_ws s' else s
  | EmptyString => s
  end.

Fixpoint strip (prefix s : string) : option string :=
  match prefix, s with
  | EmptyString, _ => Some s
  | String a p, String b s' => if decide (a = b) then strip p s' else None
  | String _ _, EmptyString => None
  end.

(** The longest run of digits at the front of [s], and what follows. *)
Fixpoint digits (s : string) : list Z * string :=
  match s with
  | String a s' =>
      if is_digit a
      then let '(ds, rest) := digits s' in ((code a - 48)%Z :: ds, rest)
      else ([], s)
  | EmptyString => ([], s)
  end.

Definition decimal (ds : list Z) : Z := foldl (λ n d, 10 * n + d)%Z 0%Z ds.

Definition hex (a : ascii) : option Z :=
  let c := code a in
  if is_digit a then Some (c - 48)%Z
  else if (97 <=? c)%Z && (c <=? 102)%Z then Some (c - 87)%Z
  else if (65 <=? c)%Z && (c <=? 70)%Z then Some (c - 55)%Z
  else None.

(** The bytes of one code unit. *)
Definition unit_bytes (u : Z) : string :=
  if (u <? 128)%Z then String (char u) ""
  else if (u <? 2048)%Z
  then String (char (192 + u `div` 64)) (String (char (128 + u `mod` 64)) "")
  else String (char (224 + u `div` 4096))
         (String (char (128 + (u `div` 64) `mod` 64))
            (String (char (128 + u `mod` 64)) "")).

Definition escape (a : ascii) : option ascii :=
  let c := code a in
  if (c =? 34)%Z || (c =? 92)%Z || (c =? 47)%Z then Some a
  else if (c =? 98)%Z then Some (char 8)
  else if (c =? 102)%Z then Some (char 12)
  else if (c =? 110)%Z then Some (char 10)
  else if (c =? 114)%Z then Some (char 13)
  else if (c =? 116)%Z then Some (char 9)
  else None.

(** The characters of a string literal after its opening quote. *)
Fixpoint string_body (s : string) : option (string * string) :=
  match s with
  | EmptyString => None
  | String a s' =>
      if (code a =? 34)%Z then Some (EmptyString, s')
      else if (code a <? 32)%Z then None
      else if (code a =? 92)%Z then
        match s' with
        | String e s'' =>
            match escape e with
            | Some c =>
                '(r, rest) ← string_body s''; Some (String c r, rest)
            | None =>
                match s'' with
                | String h1 (String h2 (String h3 (String h4 s3))) =>
                    if (code e =? 117)%Z then
                      d1 ← hex h1; d2 ← hex h2; d3 ← hex h3; d4 ← hex h4;
                      '(r, rest) ← string_body s3;
                      Some (unit_bytes (4096 * d1 + 256 * d2 + 16 * d3 + d4)
                              +:+ r, rest)
                    else None
                | _ => None
                end
            end
        | EmptyString => None
        end
      else '(r, rest) ← string_body s'; Some (String a r, rest)
  end.

Definition number (s : string) : option (JSValue * string) :=
  let '(sign, s1) :=
    match strip "-" s with Some r => ((-1)%Z, r) | None => (1%Z, s) end in
  '(int, s2) ←
    match strip "0" s1 with
    | Some r => Some ([0%Z], r)
    | None => let '(ds, r) := digits s1 in
              if decide (ds = []) then None else Some (ds, r)
    end;
  '(frac, s3) ←
    match strip "." s2 with
    | Some r => let '(ds, r') := digits r in
                if decide (ds = []) then None else Some (ds, r')
    | None => Some ([], s2)
    end;
  '(exp, s4) ←
    match s3 with
    | String a r =>
        if (code a =? 101)%Z || (code a =? 69)%Z then
          let '(esign, r1) :=
            match strip "-" r, strip "+" r with
            | Some r', _ => ((-1)%Z, r')
            | None, Some r' => (1%Z, r')
            | None, None => (1%Z, r)
            end in
          let '(ds, r2) := digits r1 in
          if decide (ds = []) then None else Some ((esign * decimal ds)%Z, r2)
        else Some (0%Z, s3)
    | EmptyString => Some (0%Z, s3)
    end;
  Some (JNumber (sign * decimal (int ++ frac))
                (exp - Z.of_nat (length frac))%Z, s4).

(** A value, the elements of an array after its first bracket, and the
    members of an object after its first brace.  Every call consumes
    input, so fuel linear in the length of the text is enough. *)
Fixpoint value (fuel : nat) (s : string) : option (JSValue * string) :=
  match fuel with
  | O => None
  | S fuel =>
      let s := skip_ws s in
      match s with
      | EmptyString => None
      | String a s' =>
          if (code a =? 91)%Z then
            match strip "]" (skip_ws s') with
            | Some rest => Some (JArray [], rest)
            | None => '(vs, rest) ← elements fuel s' []; Some (JArray vs, rest)
            end
          else if (code a =? 123)%Z then
            match strip "}" (skip_ws s') with
            | Some rest => Some (JObject [], rest)
            | None => '(ms, rest) ← members fuel s' []; Some (JObject ms, rest)
            end
          else if (code a =? 34)%Z then
            '(str, rest) ← string_body s'; Some (JString str, rest)
          else match strip "null" s, strip "true" s, strip "false" s with
               | Some rest, _, _ => Some (JNull, rest)
               | _, Some rest, _ => Some (JBool true, rest)
               | _, _, Some rest => Some (JBool false, rest)
               | _, _, _ => number s
               end
      end
  end
with elements (fuel : nat) (s : string) (acc : list JSValue)
    : option (list JSValue * string) :=
  match fuel with
  | O => None
  | S fuel =>
      '(v, rest) ← value fuel s;
      let rest := skip_ws rest in
      match strip "," rest, strip "]" rest with
      | Some rest', _ => elements fuel rest' (acc ++ [v])
      | _, Some rest' => Some (acc ++ [v], rest')
      | _, _ => None
      end
  end
with members (fuel : nat) (s : string) (acc : list (string * JSValue))
    : option (list (string * JSValue) * string) :=
  match fuel with
  | O => None
  | S fuel =>
      s1 ← strip (String (char 34) "") (skip_ws s);
      '(key, s2) ← string_body s1;
      s3 ← strip ":" (skip_ws s2);
      '(v, rest) ← value fuel s3;
      let rest := skip_ws rest in
      match strip "," rest, strip "}" rest with
      | Some rest', _ => members fuel rest' (acc ++ [(key, v)])
      | _, Some rest' => Some (acc ++ [(key, v)], rest')
      | _, _ => None
      end
  end.

(** [JSON.parse(text)]: [None] when it throws a [SyntaxError]. *)
Definition parse (text : string) : option JSValue :=
  '(v, rest) ← value (2 * String.length text + 2) text;
  if decide (skip_ws rest = EmptyString) then Some v else None.

End JSON.

(** ** hooks/useLocalStorage

    [localStorage] maps keys to the stored texts.  [JSON_parse] is the
    parser the hook runs on a stored text; it answers [None] where
    [JSON.parse] throws. *)

Section useLocalStorage.
Variable JSON_parse : string → option JSValue.

(** The initial state of the hook: what the initializer passed to
    [useState] returns.  An exception inside [try] ends in the [catch]
    branch, which logs and returns [initialValue]. *)
Definition useLocalStorage_init (localStorage : gmap string string)
    (key : string) (initialValue : JSValue) : JSValue :=
  match localStorage !! key with
  | None => initialValue
  | Some item =>
      if decide (item = EmptyString) then initialValue
      else match JSON_parse item with
           | Some v => v
           | None => initialValue
           end
  end.

End useLocalStorage.

(** The shape [useHabits] expects of the value under ["habits"]: it calls
    [habits.reduce], which only an array has. *)
Definition isArray (v : JSValue) : bool :=
  match v with
  | JArray _ => true
  | _ => false
  end.


(** ** Vocabulary of the properties *)


(** The number of days that have an entry: [totalDays] in
    [getHabitStats], the denominator of the completion rate. *)
Definition totalDays (habit : Habit) : nat :=
  length (Object_keys (completions habit)).


(** The scan of [getHabitStats] for the longest streak visits the keys
    of the completions in this order, and reads these values. *)
Definition sortedDates (habit : Habit) : list string :=
  Array_sort (Object_keys (completions habit)).

Definition sortedValues (habit : Habit) : list bool :=
  completed habit <$> sortedDates habit.

(** [vs] holds [true] at the [len] consecutive positions from [start]
    on, and [n] is the greatest length of such a run in [vs]. *)
Definition trueRun (vs : list bool) (start len : nat) : Prop :=
  ∀ j, start ≤ j < start + len → vs !! j = Some true.

Definition longestTrueRun (vs : list bool) (n : nat) : Prop :=
  (∃ start, trueRun vs start n)
  ∧ ∀ start len, trueRun vs start len → len ≤ n.

(** One iteration of the scan, on the value it reads. *)
Definition scan_step (st : Z * Z) (b : bool) : Z * Z :=
  if b then (Z.max st.1 (st.2 + 1), st.2 + 1)%Z else (st.1, 0%Z).

(** What the scan knows after reading [vs]: [T] is the length of the run
    of [true] that ends [vs], [L] the greatest length of a run in [vs]. *)
Definition scanned (vs : list bool) (L T : nat) : Prop :=
  T ≤ length vs
  ∧ trueRun vs (length vs - T) T
  ∧ (∀ start len, trueRun vs start len → start + len = length vs → len ≤ T)
  ∧ longestTrueRun vs L.

(** ** Scenarios *)

(** Scenario C of the specification: yesterday completed, today not yet
    touched. *)
Definition scenarioC : Habit :=
  {| id := "1704412800000"; name := "Read"; emoji := ""; color := "";
     createdAt := "2024-01-05";
     completions := {[ "2024-01-05"%string := true ]} |}.

(** Scenario B of the specification. *)
Definition scenarioB : Habit :=
  {| id := "1704067200000"; name := "Read"; emoji := ""; color := "";
     createdAt := "2024-01-01";
     completions := {[ "2024-01-01"%string := true; "2024-01-02"%string := true;
                       "2024-01-03"%string := false ]} |}.

(** Two completed days a week apart, nothing recorded in between. *)
Definition weekApart : Habit :=
  {| id := "1704412800000"; name := "Read"; emoji := ""; color := "";
     createdAt := "2024-01-01";
     completions := {[ "2024-01-01"%string := true; "2024-01-08"%string := true ]} |}.

(** New York in 2025: five hours behind UTC until the clocks go forward
    at 2025-03-09T07:00Z, four hours behind after. *)
Definition newYorkSpring2025 : TimeZone :=
  transitionZone 1741503600000 (-18000000) (-14400000).

(** New York in 2025: four hours behind UTC until the clocks go back at
    2025-11-02T06:00Z, five hours behind after. *)
Definition newYorkAutumn2025 : TimeZone :=
  transitionZone 1762063200000 (-14400000) (-18000000).

(** ** hooks/useHabits: the remaining members *)

(** [Partial<Habit>]: the fields that an update gives. *)
Record HabitUpdates := mkHabitUpdates {
  newId : option string;
  newName : option string;
  newEmoji : option string;
  newColor : option string;
  newCreatedAt : option string;
  newCompletions : option (gmap string bool);
}.

(** [{ ...habit, ...updates }] *)
Definition spreadUpdates (habit : Habit) (updates : HabitUpdates) : Habit :=
  {| id := default (id habit) (newId updates);
     name := default (name habit) (newName updates);
     emoji := default (emoji habit) (newEmoji updates);
     color := default (color habit) (newColor updates);
     createdAt := default (createdAt habit) (newCreatedAt updates);
     completions := default (completions habit) (newCompletions updates) |}.

Definition updateHabit (id' : string) (updates : HabitUpdates)
    (prev : list Habit) : list Habit :=
  (λ habit, if decide (id habit = id') then spreadUpdates habit updates
            else habit) <$> prev.

(** [habitStats]: the reduction that files the statistics of every habit
    under its id.  [getHabitStats] reads the clock once per habit;
    [clock k] is the reading taken for the habit at position [k]. *)
Definition habitStats (tz : TimeZone) (clock : nat → Z) (habits : list Habit)
    : gmap string HabitStats :=
  foldl (λ acc kh, <[id kh.2 := getHabitStats tz (clock kh.1) kh.2]> acc)
        ∅ (imap pair habits).

(** ** The progress overview (components/StatsPanel, and inline in App) *)

(** [Math.max(...xs)]; [None] stands for [-Infinity], the maximum of no
    number. *)
Definition Math_max (xs : list Z) : option Z :=
  foldl (λ acc x, Some (from_option (Z.max x) x acc)) None xs.

Record Overview := mkOverview {
  totalHabits : Z;
  averageCompletion : Q;
  totalStreaks : Z;
  bestStreak : option Z;
}.

(** [habitStats[habit.id]?.field || 0] *)
Definition statOr0 {A} (field : HabitStats → A) (zero : A)
    (stats : gmap string HabitStats) (habit : Habit) : A :=
  from_option field zero (stats !! id habit).

(** The figures of [App]: the average guards against an empty collection,
    the maximum has a 0 among its arguments. *)
Definition App_overview (habits : list Habit) (stats : gmap string HabitStats)
    : Overview :=
  let totalHabits := Z.of_nat (length habits) in
  {| totalHabits := totalHabits;
     averageCompletion :=
       if (0 <? Z.of_nat (length habits))%Z
       then (foldl (λ sum habit,
                      sum + statOr0 completionRate (inject_Z 0) stats habit)%Q
                   (inject_Z 0) habits / inject_Z totalHabits)%Q
       else inject_Z 0;
     totalStreaks :=
       foldl (λ sum habit, sum + statOr0 currentStreak 0 stats habit)%Z 0%Z habits;
     bestStreak :=
       Math_max ((statOr0 longestStreak 0%Z stats <$> habits) ++ [0%Z]) |}.

(** The figures of [StatsPanel]: none for an empty collection, where the
    component returns before it computes them. *)
Definition StatsPanel_overview (habits : list Habit)
    (stats : gmap string HabitStats) : option Overview :=
  if decide (length habits = 0) then None
  else
    let totalHabits := Z.of_nat (length habits) in
    Some {| totalHabits := totalHabits;
            averageCompletion :=
              (foldl (λ sum habit,
                        sum + statOr0 completionRate (inject_Z 0) stats habit)%Q
                     (inject_Z 0) habits / inject_Z totalHabits)%Q;
            totalStreaks :=
              foldl (λ sum habit, sum + statOr0 currentStreak 0 stats habit)%Z
                    0%Z habits;
            bestStreak := Math_max (statOr0 longestStreak 0%Z stats <$> habits) |}.

(** ** utils/dateUtils: [parseDate], and the built-in that reads a date
    from a string *)

(** Days of month [m] (0 = January) in a year that is leap ([leap] = 1)
    or not ([leap] = 0). *)
Definition DaysInMonth (m leap : Z) : Z :=
  match m with
  | 1%Z => (28 + leap)%Z
  | 3%Z | 5%Z | 8%Z | 10%Z => 30%Z
  | _ => 31%Z
  end.

Definition digitValue (a : ascii) : option Z :=
  if JSON.is_digit a then Some (JSON.code a - 48)%Z else None.

(** Two digits, and one given character, at the front of a string. *)
Definition digits2 (s : string) : option (Z * string) :=
  match s with
  | String a (String b rest) =>
      x ← digitValue a; y ← digitValue b; Some ((10 * x + y)%Z, rest)
  | _ => None
  end.

Definition expect (c : ascii) (s : string) : option string :=
  match s with
  | String a rest => if decide (a = c) then Some rest else None
  | EmptyString => None
  end.

(** [new Date(s)] for a date-time string [YYYY-MM-DDTHH:mm:ss] without
    offset, which is read as local time.  [None] stands for every other
    string: depending on the string and on the engine it gives an invalid
    date or is read by rules of the engine's own. *)
Definition Date_fromDateTime (tz : TimeZone) (s : string) : option Z :=
  '(century, s) ← digits2 s;
  '(yearOfCentury, s) ← digits2 s;
  s ← expect "-" s;
  '(month, s) ← digits2 s;
  s ← expect "-" s;
  '(day, s) ← digits2 s;
  s ← expect "T" s;
  '(hour, s) ← digits2 s;
  s ← expect ":" s;
  '(minute, s) ← digits2 s;
  s ← expect ":" s;
  '(second, s) ← digits2 s;
  let year := (100 * century + yearOfCentury)%Z in
  let leap := if (DaysInYear year =? 366)%Z then 1%Z else 0%Z in
  if bool_decide (s = EmptyString)
     && (1 <=? month)%Z && (month <=? 12)%Z
     && (1 <=? day)%Z && (day <=? DaysInMonth (month - 1) leap)%Z
     && ((hour <=? 23)%Z && (minute <=? 59)%Z && (second <=? 59)%Z
         || (hour =? 24)%Z && (minute =? 0)%Z && (second =? 0)%Z)
  then Some (UTC tz (MakeDate (MakeDay year (month - 1) day)
                       (hour * msPerHour + minute * msPerMinute
                        + second * msPerSecond)%Z))
  else None.

Definition parseDate (tz : TimeZone) (dateString : string) : option Z :=
  Date_fromDateTime tz (dateString +:+ "T00:00:00").

(** The day identifier of a year from 0 to 9999, a month (0 = January)
    and a day of the month, digit by digit. *)
Definition digit (n : Z) : ascii := pretty_N_char (Z.to_N n).

Definition dayId (y m d : Z) : string :=
  String (digit (y `div` 1000)) (String (digit ((y `div` 100) `mod` 10))
    (String (digit ((y `div` 10) `mod` 10)) (String (digit (y `mod` 10))
      (String "-" (String (digit ((m + 1) `div` 10)) (String (digit ((m + 1) `mod` 10))
        (String "-" (String (digit (d `div` 10)) (String (digit (d `mod` 10))
          EmptyString)))))))))%Z.

(** The day identifier read as one number, [YYYYMMDD]. *)
Definition dayNumber (y m d : Z) : Z := (y * 10000 + (m + 1) * 100 + d)%Z.

(** ** components/HabitRow and components/HabitGrid *)

(** The completion cells of a row, one for each date: a cell is drawn
    completed when [habit.completions[formatDate(date)]] is truthy. *)
Definition HabitRow_cells (habit : Habit) (dates : list Z) : list bool :=
  (λ date, completed habit (formatDate date)) <$> dates.

(** The click handler of the cell of [date] in the row of [habit], as the
    updater that reaches [setHabits]. *)
Definition handleCellClick (habit : Habit) (date : Z) (prev : list Habit)
    : list Habit :=
  toggleCompletion (id habit) (formatDate date) prev.

(** The rows of [HabitGrid]: for each habit the streak handed to its row,
    [habitStats[habit.id]?.currentStreak || 0], and its cells for the
    dates of [getDateRange(7)]. *)
Definition HabitGrid_rows (tz : TimeZone) (now : Z) (habits : list Habit)
    (stats : gmap string HabitStats) : list (Z * list bool) :=
  let dates := getDateRange tz now 7 in
  (λ habit, (statOr0 currentStreak 0%Z stats habit, HabitRow_cells habit dates))
    <$> habits.

(** Cell [l] of row [j]. *)
Definition cell (rows : list (Z * list bool)) (j l : nat) : option bool :=
  row ← rows !! j; row.2 !! l.


(** * Properties *)

(** ** Date arithmetic *)

Section DateArithmetic.
Local Open Scope Z_scope.

(** The estimate of [YearFromTime] is within one year of the year. *)
Lemma year_estimate_close d :
  DayFromYear (1970 + (400 * d) `div` 146097 - 1) ≤ d
    < DayFromYear (1970 + (400 * d) `div` 146097 + 2).
Proof. unfold DayFromYear. Z.div_mod_to_equations. lia. Qed.

(** [YearFromTime t] is the year that contains [t]: the largest one that
    starts on or before the day of [t]. *)
Lemma YearFromTime_spec t :
  DayFromYear (YearFromTime t) ≤ Day t < DayFromYear (YearFromTime t + 1).
Proof.
  unfold YearFromTime. cbv zeta. generalize (Day t). intros d.
  pose proof (year_estimate_close d) as Hclose.
  revert Hclose. generalize (1970 + (400 * d) `div` 146097). intros y Hclose.
  replace (y + 2) with (y + 1 + 1) in Hclose by lia.
  destruct (Z.ltb_spec d (DayFromYear y)).
  - replace (y - 1 + 1) with y by lia. lia.
  - destruct (Z.leb_spec (DayFromYear (y + 1)) d); lia.
Qed.

Lemma DayFromYear_succ y : DayFromYear (y + 1) = DayFromYear y + DaysInYear y.
Proof.
  unfold DayFromYear, DaysInYear.
  repeat match goal with
         | |- context [?a =? ?b] => destruct (Z.eqb_spec a b); simpl
         end; Z.div_mod_to_equations; lia.
Qed.

Lemma DayWithinYear_range t :
  0 ≤ DayWithinYear t < DaysInYear (YearFromTime t).
Proof.
  pose proof (YearFromTime_spec t) as Hy. rewrite DayFromYear_succ in Hy.
  unfold DayWithinYear. lia.
Qed.

Lemma MonthFromTime_range t : 0 ≤ MonthFromTime t ≤ 11.
Proof.
  unfold MonthFromTime.
  repeat (match goal with |- context [if ?b then _ else _] => destruct b end);
    lia.
Qed.

Lemma DateFromTime_range t : 1 ≤ DateFromTime t ≤ 31.
Proof.
  pose proof (DayWithinYear_range t) as Hd.
  unfold DateFromTime, MonthFromTime, InLeapYear in *.
  destruct (DaysInYear (YearFromTime t) =? 366) eqn:Hleap.
  - apply Z.eqb_eq in Hleap. rewrite Hleap in Hd.
    repeat match goal with
           | |- context [?a <? ?b] => destruct (Z.ltb_spec a b); simpl
           end; lia.
  - assert (DaysInYear (YearFromTime t) = 365) as Hlen.
    { apply Z.eqb_neq in Hleap. revert Hleap. unfold DaysInYear.
      repeat case_match; lia. }
    rewrite Hlen in Hd.
    repeat match goal with
           | |- context [?a <? ?b] => destruct (Z.ltb_spec a b); simpl
           end; lia.
Qed.

(** Setting the day of the month to itself minus [i] moves the local
    time back by [i] whole days, whatever the month and the year. *)
Lemma MakeDay_DateFromTime tl i :
  MakeDay (YearFromTime tl) (MonthFromTime tl) (DateFromTime tl - i) = Day tl - i.
Proof.
  pose proof (MonthFromTime_range tl) as Hm.
  unfold MakeDay, DateFromTime, DayWithinYear, InLeapYear.
  rewrite (Z.div_small (MonthFromTime tl) 12), (Z.mod_small (MonthFromTime tl) 12) by lia.
  rewrite Z.add_0_r. lia.
Qed.

Lemma setDate_getDate tz t i :
  setDate tz t (getDate tz t - i) = UTC tz (LocalTime tz t - i * msPerDay).
Proof.
  unfold setDate, getDate. cbv zeta. rewrite MakeDay_DateFromTime.
  f_equal. unfold MakeDate, Day, TimeWithinDay.
  pose proof (Z.div_mod (LocalTime tz t) msPerDay). unfold msPerDay in *. lia.
Qed.

Lemma setDate_fixedZone offset t i :
  setDate (fixedZone offset) t (getDate (fixedZone offset) t - i) = t - i * msPerDay.
Proof. rewrite setDate_getDate. unfold UTC, LocalTime. simpl. lia. Qed.

Lemma Day_shift t i : Day (t - i * msPerDay) = Day t - i.
Proof.
  unfold Day. replace (t - i * msPerDay) with (t + (- i) * msPerDay) by lia.
  rewrite Z.div_add by (unfold msPerDay; lia). lia.
Qed.

End DateArithmetic.

(** ** The current streak *)

Section CurrentStreak.
Local Open Scope Z_scope.


Lemma calculateStreak_loop_neg tz now habit i streak :
  i < 0 → calculateStreak_loop tz now habit i streak = streak.
Proof. intros Hi. simp calculateStreak_loop. destruct (decide (0 ≤ i)); [lia|done]. Qed.

Lemma calculateStreak_unfold tz now habit :
  calculateStreak tz now habit =
    if completed habit (formatDate (setDate tz now (getDate tz now - 0)))
    then 1 else 0.
Proof.
  unfold calculateStreak. simp calculateStreak_loop. simpl.
  destruct (completed habit _); simpl; by rewrite calculateStreak_loop_neg.
Qed.



(** C1: at noon (UTC) of 2024-01-06, with no entry for that day and
    2024-01-05 completed, [calculateStreak] returns 0: the walk stops
    after offset 0 and never reaches yesterday. *)
Theorem calculateStreak_scenarioC :
  today 1704542400000 = "2024-01-06"%string
  ∧ completions scenarioC !! "2024-01-05"%string = Some true
  ∧ calculateStreak (fixedZone 0) 1704542400000 scenarioC = 0.
Proof. split_and!; by vm_compute. Qed.

(** The same in every time zone and at every instant of that day. *)
Lemma scenarioC_streak_in_any_zone tz now :
  formatDate (setDate tz now (getDate tz now - 0)) = "2024-01-06"%string →
  calculateStreak tz now scenarioC = 0.
Proof. intros Hd. rewrite calculateStreak_unfold, Hd. reflexivity. Qed.

End CurrentStreak.

(** ** The range of days *)

Section DayRange.
Local Open Scope Z_scope.

Lemma getDateRange_loop_neg tz now i dates :
  i < 0 → getDateRange_loop tz now i dates = dates.
Proof. intros Hi. simp getDateRange_loop. destruct (decide (0 ≤ i)); [lia|done]. Qed.

Lemma getDateRange_loop_step tz now i dates :
  0 ≤ i →
  getDateRange_loop tz now i dates =
    getDateRange_loop tz now (i - 1)
      (dates ++ [setDate tz now (getDate tz now - i)]).
Proof.
  intros Hi. rewrite getDateRange_loop_equation_1.
  destruct (decide (0 ≤ i)); [by simp getDateRange_loop|lia].
Qed.

(** The loop pushes the dates at offsets [n - 1], ..., [0], in this order. *)
Lemma getDateRange_loop_spec tz now (n : nat) dates :
  getDateRange_loop tz now (Z.of_nat n - 1) dates =
    dates ++ ((λ k : nat, setDate tz now (getDate tz now - Z.of_nat k))
                <$> reverse (seq 0 n)).
Proof.
  revert dates. induction n as [|n IH]; intros dates.
  - rewrite getDateRange_loop_neg by lia. simpl. by rewrite app_nil_r.
  - rewrite getDateRange_loop_step by lia.
    replace (Z.of_nat (S n) - 1 - 1) with (Z.of_nat n - 1) by lia.
    rewrite IH, seq_S, reverse_app, <-app_assoc. simpl.
    by replace (Z.of_nat (S n) - 1) with (Z.of_nat n) by lia.
Qed.

Lemma getDateRange_spec tz now (n : nat) :
  getDateRange tz now (Z.of_nat n) =
    (λ k : nat, setDate tz now (getDate tz now - Z.of_nat k)) <$> reverse (seq 0 n).
Proof. unfold getDateRange. by rewrite getDateRange_loop_spec. Qed.

(** What holds in every time zone: [n] dates, the last one the date at
    offset 0. *)
Lemma dayRange_length tz now (n : nat) :
  length (dayRange tz now (Z.of_nat n)) = n.
Proof.
  unfold dayRange. rewrite getDateRange_spec.
  by rewrite !length_fmap, length_reverse, length_seq.
Qed.

Lemma dayRange_last tz now (n : nat) :
  (0 < n)%nat →
  last (dayRange tz now (Z.of_nat n)) =
    Some (formatDate (setDate tz now (getDate tz now - 0))).
Proof.
  intros Hn. unfold dayRange. rewrite getDateRange_spec.
  destruct n as [|n]; [lia|]. simpl seq. rewrite reverse_cons.
  rewrite !fmap_app. cbn [fmap list_fmap]. by rewrite last_snoc.
Qed.

(** Where the offset from UTC never changes, the dates are whole days
    apart also in UTC, which is where [formatDate] reads them. *)
Lemma getDateRange_fixedZone offset now (n k : nat) :
  (k < n)%nat →
  Day <$> (getDateRange (fixedZone offset) now (Z.of_nat n) !! k)
    = Some (Day now - (Z.of_nat n - 1 - Z.of_nat k)).
Proof.
  intros Hk. rewrite getDateRange_spec, list_lookup_fmap.
  rewrite reverse_lookup by (rewrite length_seq; lia).
  rewrite length_seq, lookup_seq_lt by lia. simpl.
  rewrite setDate_fixedZone, Day_shift. f_equal. lia.
Qed.

(** C5: in New York on the evening of 2025-03-09, the day the clocks go
    forward, at 23:30 UTC, [dayRange 3] names 2025-03-09 twice: the
    identifiers are neither distinct nor one day apart. *)
Theorem dayRange_repeats_a_day :
  today 1741563000000 = "2025-03-09"%string
  ∧ dayRange newYorkSpring2025 1741563000000 3
    = ["2025-03-08"; "2025-03-09"; "2025-03-09"]%string
  ∧ ¬ NoDup (dayRange newYorkSpring2025 1741563000000 3).
Proof.
  split_and!; [by vm_compute..|].
  intros Hnd. vm_compute in Hnd.
  apply NoDup_cons_1_2, NoDup_cons_1_1 in Hnd. apply Hnd. by left.
Qed.

(** In the evening of 2025-11-03, the day after the clocks went back,
    [dayRange 3] leaves 2025-11-02 out. *)
Lemma dayRange_skips_a_day :
  today 1762216200000 = "2025-11-04"%string
  ∧ dayRange newYorkAutumn2025 1762216200000 3
    = ["2025-11-01"; "2025-11-03"; "2025-11-04"]%string.
Proof. split; by vm_compute. Qed.

End DayRange.

(** ** The habit repository *)

Section Repository.
Implicit Types (habits : list Habit) (habit : Habit) (date : string).

(** One toggle, seen at one position of the collection. *)
Lemma toggleCompletion_lookup habitId date habits i habit :
  habits !! i = Some habit →
  toggleCompletion habitId date habits !! i =
    Some (if decide (id habit = habitId)
          then {| id := id habit; name := name habit; emoji := emoji habit;
                  color := color habit; createdAt := createdAt habit;
                  completions :=
                    <[date := negb (completed habit date)]> (completions habit) |}
          else habit).
Proof. intros Hi. unfold toggleCompletion. by rewrite list_lookup_fmap, Hi. Qed.

Lemma toggleCompletion_ids habitId date habits :
  id <$> toggleCompletion habitId date habits = id <$> habits.
Proof.
  unfold toggleCompletion. rewrite <-list_fmap_compose.
  apply list_fmap_ext. intros _ habit _. simpl. by case_decide.
Qed.

Lemma toggleCompletion_absent habitId date habits :
  habitId ∉ (id <$> habits) → toggleCompletion habitId date habits = habits.
Proof.
  intros Habs. unfold toggleCompletion.
  rewrite <-(list_fmap_id habits) at 2. apply list_fmap_ext.
  intros i habit Hi. simpl. case_decide as Hid; [|done].
  destruct Habs. rewrite <-Hid. apply list_elem_of_fmap_2.
  by eapply list_elem_of_lookup_2.
Qed.

Lemma deleteHabit_absent id' habits :
  id' ∉ (id <$> habits) → deleteHabit id' habits = habits.
Proof.
  unfold deleteHabit. induction habits as [|habit habits IH]; [done|].
  rewrite fmap_cons, not_elem_of_cons. intros [Hne Habs].
  rewrite filter_cons_True by done. by rewrite IH.
Qed.

Lemma deleteHabit_removes id' habits : id' ∉ (id <$> deleteHabit id' habits).
Proof.
  unfold deleteHabit. rewrite list_elem_of_fmap.
  intros (habit & -> & Hin). by apply list_elem_of_filter in Hin as [? _].
Qed.

(** C7: [deleteHabit] and [toggleCompletion] with an id that no habit of
    the collection has return the collection as it was; so deleting the
    same id a second time changes nothing more. *)
Theorem unknown_id_is_noop habits id' date :
  (id' ∉ (id <$> habits) →
     deleteHabit id' habits = habits
     ∧ toggleCompletion id' date habits = habits)
  ∧ deleteHabit id' (deleteHabit id' habits) = deleteHabit id' habits.
Proof.
  split.
  - intros Habs. split.
    + by apply deleteHabit_absent.
    + by apply toggleCompletion_absent.
  - apply deleteHabit_absent, deleteHabit_removes.
Qed.

Lemma unknown_id_is_noop_witness :
  ("2"%string ∉ (id <$> [scenarioC]))
  ∧ deleteHabit "2" [scenarioC] = [scenarioC]
  ∧ toggleCompletion "2" "2024-01-06" [scenarioC] = [scenarioC].
Proof.
  assert (H : "2"%string ∉ (id <$> [scenarioC])) by compute_done.
  split; [exact H|].
  exact (proj1 (unknown_id_is_noop [scenarioC] "2" "2024-01-06") H).
Defined.









(** *** Identifiers *)

Lemma deleteHabit_ids id' habits :
  (id <$> deleteHabit id' habits) `sublist_of` (id <$> habits).
Proof. unfold deleteHabit. apply fmap_sublist, sublist_filter. Qed.

(** The ids of a run are, in order, ids of the initial collection and
    renderings of the clock readings of its [addHabit] calls. *)
Lemma run_ids ops habits :
  (id <$> run ops habits)
    `sublist_of` ((id <$> habits) ++ (Number_toString <$> idClocks ops)).
Proof.
  revert habits. induction ops as [|op ops IH]; intros habits.
  - simpl. by rewrite app_nil_r.
  - change (run (op :: ops) habits) with (run ops (step habits op)).
    etrans; [apply IH|].
    destruct op as [idClock createdClock n e c|id'|habitId date]; simpl.
    + unfold addHabit. rewrite fmap_app. simpl. by rewrite <-app_assoc.
    + apply sublist_app; [apply deleteHabit_ids|done].
    + by rewrite toggleCompletion_ids.
Qed.

(** C3, as the code has it: the ids of the habits of every collection
    reachable from the empty one are pairwise distinct provided the
    [Date.now()] readings of the [addHabit] calls are pairwise distinct. *)
Theorem ids_unique_for_distinct_clocks ops :
  NoDup (idClocks ops) → NoDup (id <$> run ops []).
Proof.
  intros Hclocks. eapply sublist_NoDup; [|apply run_ids].
  simpl. apply NoDup_fmap_2; [|done]. unfold Number_toString. apply _.
Qed.

Lemma ids_unique_for_distinct_clocks_witness :
  NoDup (idClocks [OpAdd 1704542400000 1704542400001 "Read" "" "";
                   OpToggle "1704542400000" "2024-01-06";
                   OpAdd 1704542400002 1704542400002 "Gym" "" "";
                   OpDelete "1704542400000"])
  ∧ NoDup (id <$> run [OpAdd 1704542400000 1704542400001 "Read" "" "";
                       OpToggle "1704542400000" "2024-01-06";
                       OpAdd 1704542400002 1704542400002 "Gym" "" "";
                       OpDelete "1704542400000"] []).
Proof.
  assert (H : NoDup (idClocks [OpAdd 1704542400000 1704542400001 "Read" "" "";
                               OpToggle "1704542400000" "2024-01-06";
                               OpAdd 1704542400002 1704542400002 "Gym" "" "";
                               OpDelete "1704542400000"])) by compute_done.
  split; [exact H|]. exact (ids_unique_for_distinct_clocks _ H).
Defined.

(** C3, as stated, fails: two habits added within the same millisecond
    get the same id. *)
Lemma ids_clash_within_a_millisecond :
  run [OpAdd 1704542400000 1704542400000 "Read" "" "";
       OpAdd 1704542400000 1704542400000 "Gym" "" ""] []
  = [mkHabit "1704542400000" "Read" "" "" "2024-01-06" ∅;
     mkHabit "1704542400000" "Gym" "" "" "2024-01-06" ∅]
  ∧ ¬ NoDup (id <$> run [OpAdd 1704542400000 1704542400000 "Read" "" "";
                         OpAdd 1704542400000 1704542400000 "Gym" "" ""] []).
Proof.
  split; [by vm_compute|].
  intros Hnd. vm_compute in Hnd. apply NoDup_cons_1_1 in Hnd.
  apply Hnd. by left.
Qed.

End Repository.

(** ** Statistics *)

Section Statistics.

Lemma length_filter_snd (l : list (string * bool)) :
  length (filter (λ b : bool, b = true) l.*2)
  = length (filter (λ kv : string * bool, kv.2 = true) l).
Proof.
  induction l as [|[k b] l IH]; [done|].
  rewrite fmap_cons. simpl. destruct b.
  - rewrite !filter_cons_True by done. simpl. by rewrite IH.
  - rewrite !filter_cons_False by done. done.
Qed.

(** The counts of [getHabitStats] are counts of entries of the map. *)
Lemma count_true_values (m : gmap string bool) :
  length (filter (λ b : bool, b = true) (Object_values m))
  = size (filter (λ kv : string * bool, kv.2 = true) m).
Proof.
  unfold Object_values. rewrite length_filter_snd, map_filter_alt.
  rewrite map_size_list_to_map; [done|].
  eapply sublist_NoDup; [apply (NoDup_fst_map_to_list m)|].
  apply fmap_sublist, sublist_filter.
Qed.

Lemma count_keys (m : gmap string bool) : length (Object_keys m) = size m.
Proof. unfold Object_keys. by rewrite length_fmap, length_map_to_list. Qed.


(** The bounds do not depend on exact arithmetic: they hold under every
    rounding that is monotone and leaves 0, 1 and 100 as they are, as
    rounding to the nearest double does. *)
Section Rounding.
Variable round : Q → Q.
Hypothesis round_mono : ∀ p q, (p <= q)%Q → (round p <= round q)%Q.
Hypothesis round_0 : (round 0 == 0)%Q.
Hypothesis round_1 : (round 1 == 1)%Q.
Hypothesis round_100 : (round 100 == 100)%Q.


End Rounding.



(** *** The longest streak *)

Lemma string_le_total : Total string_le.
Proof. intros s1 s2. apply String.leb_total. Qed.

Lemma sortedDates_sorted habit : Sorted string_le (sortedDates habit).
Proof. apply (Sorted_merge_sort _ (Total0 := string_le_total)). Qed.

Lemma sortedDates_keys habit : sortedDates habit ≡ₚ Object_keys (completions habit).
Proof. apply merge_sort_Permutation. Qed.

Lemma elem_of_sortedDates habit date :
  date ∈ sortedDates habit ↔ is_Some (completions habit !! date).
Proof.
  rewrite sortedDates_keys. unfold Object_keys.
  rewrite list_elem_of_fmap. split.
  - intros ([k b] & -> & Hin). apply elem_of_map_to_list in Hin. by exists b.
  - intros [b Hb]. exists (date, b). split; [done|]. by apply elem_of_map_to_list.
Qed.

Lemma sortedDates_NoDup habit : NoDup (sortedDates habit).
Proof. rewrite sortedDates_keys. apply NoDup_fst_map_to_list. Qed.

Lemma length_sortedDates habit : length (sortedDates habit) = size (completions habit).
Proof. rewrite sortedDates_keys. apply count_keys. Qed.

Lemma longestStreak_scan habit dates st :
  foldl (longestStreak_step habit) st dates
  = foldl scan_step st (completed habit <$> dates).
Proof.
  revert st. induction dates as [|date dates IH]; intros st; [done|].
  simpl. by rewrite IH.
Qed.

Lemma trueRun_bound vs start len :
  trueRun vs start len → 0 < len → start + len ≤ length vs.
Proof.
  intros Hrun Hlen. specialize (Hrun (start + len - 1) ltac:(lia)).
  apply lookup_lt_Some in Hrun. lia.
Qed.

Lemma trueRun_app_l vs b start len :
  trueRun (vs ++ [b]) start len → start + len ≤ length vs → trueRun vs start len.
Proof.
  intros Hrun Hlen j Hj. rewrite <-(Hrun j Hj).
  symmetry. apply lookup_app_l. lia.
Qed.

Lemma trueRun_app_r vs b start len :
  trueRun vs start len → start + len ≤ length vs → trueRun (vs ++ [b]) start len.
Proof.
  intros Hrun Hlen j Hj. rewrite lookup_app_l by lia. by apply Hrun.
Qed.

Lemma scanned_nil : scanned [] 0 0.
Proof.
  split_and!; [done|intros j; lia| |].
  - intros start len _. simpl. lia.
  - split; [exists 0; intros j; lia|].
    intros start len Hrun. destruct len; [done|].
    apply trueRun_bound in Hrun; simpl in *; lia.
Qed.

Lemma scanned_snoc vs b L T :
  scanned vs L T →
  scanned (vs ++ [b]) (if b then L `max` (T + 1) else L) (if b then T + 1 else 0).
Proof.
  intros (HT & Hend & Hmax & [start0 Hrun0] & Hlongest).
  assert (Hlen : length (vs ++ [b]) = S (length vs))
    by (rewrite length_app; simpl; lia).
  assert (Hlast : (vs ++ [b]) !! length vs = Some b)
    by (rewrite lookup_app_r, Nat.sub_diag by lia; done).
  assert (Hstart0 : L = 0 ∨ start0 + L ≤ length vs).
  { destruct L; [by left|right]. apply trueRun_bound in Hrun0; lia. }
  destruct b.
  - assert (Hend' : trueRun (vs ++ [true]) (length vs - T) (T + 1)).
    { intros j Hj. destruct (decide (j = length vs)) as [->|]; [done|].
      rewrite lookup_app_l by lia. apply Hend. lia. }
    assert (Hmax' : ∀ start len, trueRun (vs ++ [true]) start len →
              start + len = S (length vs) → len ≤ T + 1).
    { intros start len Hrun Hsl. destruct len; [lia|].
      assert (len ≤ T); [|lia]. apply (Hmax start); [|lia].
      intros j Hj. rewrite <-(Hrun j) by lia. symmetry. apply lookup_app_l. lia. }
    split_and!.
    + lia.
    + rewrite Hlen. replace (S (length vs) - (T + 1)) with (length vs - T) by lia.
      done.
    + intros start len Hrun Hsl. apply (Hmax' start); [done|lia].
    + split.
      * destruct (decide (T + 1 ≤ L)).
        -- exists start0. rewrite Nat.max_l by lia.
           destruct Hstart0 as [->|?]; [intros j; lia|by apply trueRun_app_r].
        -- exists (length vs - T). by rewrite Nat.max_r by lia.
      * intros start len Hrun. destruct (decide (len = 0)); [lia|].
        pose proof (trueRun_bound _ _ _ Hrun ltac:(lia)) as Hb. rewrite Hlen in Hb.
        destruct (decide (start + len ≤ length vs)).
        -- pose proof (Hlongest start len (trueRun_app_l _ _ _ _ Hrun ltac:(lia))). lia.
        -- pose proof (Hmax' start len Hrun ltac:(lia)). lia.
  - assert (Hno : ∀ start len, trueRun (vs ++ [false]) start len → 0 < len →
              start + len ≤ length vs).
    { intros start len Hrun Hpos.
      pose proof (trueRun_bound _ _ _ Hrun Hpos) as Hb. rewrite Hlen in Hb.
      destruct (decide (start + len ≤ length vs)); [done|].
      specialize (Hrun (length vs) ltac:(lia)). congruence. }
    split_and!.
    + lia.
    + intros j; lia.
    + intros start len Hrun Hsl. destruct len; [done|].
      pose proof (Hno start (S len) Hrun ltac:(lia)). lia.
    + split.
      * exists start0.
        destruct Hstart0 as [->|?]; [intros j; lia|by apply trueRun_app_r].
      * intros start len Hrun. destruct (decide (len = 0)); [lia|].
        apply (Hlongest start), (trueRun_app_l _ false); [done|].
        apply Hno; [done|lia].
Qed.

Lemma scan_scanned vs :
  ∃ L T, foldl scan_step (0%Z, 0%Z) vs = (Z.of_nat L, Z.of_nat T) ∧ scanned vs L T.
Proof.
  induction vs as [|b vs IH] using rev_ind.
  - exists 0, 0. split; [done|apply scanned_nil].
  - destruct IH as (L & T & Hfold & Hsc).
    exists (if b then L `max` (T + 1) else L), (if b then T + 1 else 0).
    split; [|by apply scanned_snoc].
    rewrite foldl_app. simpl. rewrite Hfold. unfold scan_step.
    destruct b; simpl; f_equal; lia.
Qed.

Lemma longestTrueRun_unique vs n1 n2 :
  longestTrueRun vs n1 → longestTrueRun vs n2 → n1 = n2.
Proof.
  intros [[s1 H1] M1] [[s2 H2] M2].
  pose proof (M1 _ _ H2). pose proof (M2 _ _ H1). lia.
Qed.

Lemma longestTrueRun_all_true n : longestTrueRun (replicate n true) n.
Proof.
  split.
  - exists 0. intros j Hj. apply lookup_replicate_2. lia.
  - intros start len Hrun. destruct (decide (len = 0)); [lia|].
    pose proof (trueRun_bound _ _ _ Hrun ltac:(lia)) as Hb.
    rewrite length_replicate in Hb. lia.
Qed.

Lemma longestStreak_sortedValues tz now habit :
  ∃ n, longestStreak (getHabitStats tz now habit) = Z.of_nat n
       ∧ longestTrueRun (sortedValues habit) n.
Proof.
  destruct (scan_scanned (sortedValues habit)) as (L & T & Hfold & Hsc).
  exists L. split; [|apply Hsc].
  unfold getHabitStats. simpl. fold (sortedDates habit).
  rewrite longestStreak_scan. fold (sortedValues habit). by rewrite Hfold.
Qed.

(** C4: the scan for the longest streak reads the keys of the
    completions in ascending order, each once, and its result is the
    greatest length of a run of consecutive true values among the values
    read.  Only keys of the map are read: where every entry is true the
    result is the number of entries, whichever days they are. *)
Theorem longestStreak_counts_sorted_entries tz now habit :
  Sorted string_le (sortedDates habit)
  ∧ NoDup (sortedDates habit)
  ∧ (∀ date, date ∈ sortedDates habit ↔ is_Some (completions habit !! date))
  ∧ (∃ n, longestStreak (getHabitStats tz now habit) = Z.of_nat n
          ∧ longestTrueRun (sortedValues habit) n)
  ∧ (map_Forall (λ _ b, b = true) (completions habit) →
     longestStreak (getHabitStats tz now habit)
     = Z.of_nat (size (completions habit))).
Proof.
  split_and!.
  - apply sortedDates_sorted.
  - apply sortedDates_NoDup.
  - apply elem_of_sortedDates.
  - apply longestStreak_sortedValues.
  - intros Hall.
    destruct (longestStreak_sortedValues tz now habit) as (n & -> & Hn).
    f_equal. eapply longestTrueRun_unique; [exact Hn|].
    rewrite <-length_sortedDates.
    replace (sortedValues habit) with (replicate (length (sortedDates habit)) true);
      [apply longestTrueRun_all_true|].
    unfold sortedValues. apply replicate_as_Forall.
    split; [by rewrite length_fmap|].
    apply Forall_fmap, Forall_forall. intros date Hin.
    apply elem_of_sortedDates in Hin as [b Hb].
    unfold completed. simpl. rewrite Hb. simpl. symmetry. by apply (Hall date).
Qed.

Lemma longestStreak_counts_sorted_entries_witness :
  map_Forall (λ _ b, b = true) (completions weekApart)
  ∧ longestStreak (getHabitStats (fixedZone 0) 1704542400000 weekApart) = 2%Z.
Proof.
  assert (H : map_Forall (λ _ b, b = true) (completions weekApart)).
  { apply map_Forall_to_list. compute_done. }
  split; [exact H|].
  exact (proj2 (proj2 (proj2 (proj2
    (longestStreak_counts_sorted_entries (fixedZone 0) 1704542400000 weekApart)))) H).
Defined.

End Statistics.

(** ** The persistent store *)

Section Store.
Implicit Types (localStorage : gmap string string) (key item : string).

(** C8, as the code has it: the hook starts from the default when the key
    was never written, when the stored text is empty and when
    [JSON.parse] rejects it; a text that [JSON.parse] accepts is returned
    as parsed, whatever its shape. *)
Theorem useLocalStorage_init_fallback
    (JSON_parse : string → option JSValue) localStorage key initialValue :
  (localStorage !! key = None →
     useLocalStorage_init JSON_parse localStorage key initialValue = initialValue)
  ∧ (∀ item, localStorage !! key = Some item →
       item = EmptyString ∨ JSON_parse item = None →
       useLocalStorage_init JSON_parse localStorage key initialValue = initialValue)
  ∧ (∀ item v, localStorage !! key = Some item →
       item ≠ EmptyString → JSON_parse item = Some v →
       useLocalStorage_init JSON_parse localStorage key initialValue = v).
Proof.
  unfold useLocalStorage_init. split_and!.
  - by intros ->.
  - intros item -> [->|Hparse]; [done|].
    case_decide; [done|]. by rewrite Hparse.
  - intros item v -> Hne Hparse. rewrite decide_False by done. by rewrite Hparse.
Qed.

Lemma useLocalStorage_init_fallback_witness :
  ({[ "habits"%string := "[1,"%string ]} : gmap string string) !! "habits"%string
    = Some "[1,"%string
  ∧ JSON.parse "[1," = None
  ∧ useLocalStorage_init JSON.parse {[ "habits"%string := "[1,"%string ]}
      "habits" (JArray []) = JArray [].
Proof.
  assert (H1 : ({[ "habits"%string := "[1,"%string ]} : gmap string string)
                 !! "habits"%string = Some "[1,"%string) by reflexivity.
  assert (H2 : JSON.parse "[1," = None) by reflexivity.
  split_and!; [exact H1|exact H2|].
  exact (proj1 (proj2 (useLocalStorage_init_fallback JSON.parse
                         {[ "habits"%string := "[1,"%string ]} "habits" (JArray [])))
           "[1,"%string H1 (or_intror H2)).
Defined.

(** C8, as stated, fails: the text [null] under ["habits"] is not a
    collection of habits, yet it parses, and the hook returns [null]
    instead of the default. *)
Lemma useLocalStorage_init_returns_null :
  JSON.parse "null" = Some JNull
  ∧ isArray JNull = false
  ∧ useLocalStorage_init JSON.parse {[ "habits"%string := "null"%string ]}
      "habits" (JArray []) = JNull
  ∧ useLocalStorage_init JSON.parse {[ "habits"%string := "null"%string ]}
      "habits" (JArray []) ≠ JArray [].
Proof. split_and!; [by vm_compute..|]. by vm_compute. Qed.

End Store.

(** ** The scenarios of the specification, run on the code *)

Section Scenarios.
Local Open Scope Z_scope.

Example formatDate_epoch : formatDate 0 = "1970-01-01"%string.
Proof. reflexivity. Qed.

Example formatDate_leap_day : formatDate 1709251199999 = "2024-02-29"%string.
Proof. reflexivity. Qed.

Example formatDate_before_epoch : formatDate (-1) = "1969-12-31"%string.
Proof. reflexivity. Qed.

(** Scenario A: a new habit. *)
Example scenarioA_stats :
  getHabitStats (fixedZone 0) 1704542400000
    (mkHabit "1704542400000" "Read" "" "" "2024-01-06" ∅)
  = mkHabitStats 0 0 (inject_Z 0) 0.
Proof. by vm_compute. Qed.

(** Scenario B: two completed days, then a day toggled back. *)
Example scenarioB_stats :
  getHabitStats (fixedZone 0) 1704283200000 scenarioB
  = mkHabitStats 0 2 (200 # 3) 2.
Proof. by vm_compute. Qed.

(** Scenario D: a habit added and deleted again. *)
Example scenarioD_empty :
  run [OpAdd 1704542400000 1704542400000 "Gym" "" "#f00";
       OpDelete "1704542400000"] [] = [].
Proof. by vm_compute. Qed.

End Scenarios.

(** ** More on the repository *)

Section RepositoryMore.
Implicit Types (habits : list Habit) (habit : Habit) (date : string).

Lemma spreadUpdates_none habit :
  spreadUpdates habit (mkHabitUpdates None None None None None None) = habit.
Proof. by destruct habit. Qed.

(** The statistics of a habit are a function of its completions. *)
Lemma getHabitStats_ext tz now habit1 habit2 :
  completions habit1 = completions habit2 →
  getHabitStats tz now habit1 = getHabitStats tz now habit2.
Proof.
  intros Hc.
  assert (Hd : ∀ date, completed habit1 date = completed habit2 date)
    by (intros date; unfold completed; by rewrite Hc).
  unfold getHabitStats. rewrite !calculateStreak_unfold, !longestStreak_scan.
  rewrite Hd, <-Hc.
  by rewrite (list_fmap_ext (completed habit1) (completed habit2)) by done.
Qed.

(** X1: [updateHabit] with an id that no habit has, or with no field to
    change, returns the collection as it was; an update that gives
    neither an id nor completions (a rename, say) keeps the id and the
    statistics of every habit. *)
Theorem updateHabit_keeps tz now habits id' updates :
  (id' ∉ (id <$> habits) → updateHabit id' updates habits = habits)
  ∧ updateHabit id' (mkHabitUpdates None None None None None None) habits = habits
  ∧ (newId updates = None → newCompletions updates = None →
       id <$> updateHabit id' updates habits = id <$> habits
       ∧ getHabitStats tz now <$> updateHabit id' updates habits
         = getHabitStats tz now <$> habits).
Proof.
  unfold updateHabit. split_and!.
  - intros Habs. rewrite <-(list_fmap_id habits) at 2. apply list_fmap_ext.
    intros i habit Hi. simpl. case_decide as Hid; [|done].
    destruct Habs. rewrite <-Hid. apply list_elem_of_fmap_2.
    by eapply list_elem_of_lookup_2.
  - rewrite <-(list_fmap_id habits) at 2. apply list_fmap_ext.
    intros i habit _. simpl. case_decide; [apply spreadUpdates_none|done].
  - intros Hid Hc. rewrite <-!list_fmap_compose. split.
    + apply list_fmap_ext. intros i habit _. simpl.
      case_decide; [|done]. unfold spreadUpdates. simpl. by rewrite Hid.
    + apply list_fmap_ext. intros i habit _. simpl.
      case_decide; [|done]. apply getHabitStats_ext.
      unfold spreadUpdates. simpl. by rewrite Hc.
Qed.

Lemma updateHabit_keeps_witness :
  ("2"%string ∉ (id <$> [scenarioC]))
  ∧ updateHabit "2" (mkHabitUpdates None (Some "Write"%string) None None None None)
      [scenarioC] = [scenarioC].
Proof.
  assert (H : "2"%string ∉ (id <$> [scenarioC])) by compute_done.
  split; [exact H|].
  exact (proj1 (updateHabit_keeps (fixedZone 0) 0 [scenarioC] "2" _) H).
Defined.

(** X2: deleting the id of the habit just added removes it again, and
    with it every older habit of the same id; where the id was new the
    collection is back to what it was before the addition. *)
Theorem addHabit_deleteHabit habits idClock createdClock name emoji color :
  deleteHabit (Number_toString idClock)
    (addHabit idClock createdClock name emoji color habits)
  = deleteHabit (Number_toString idClock) habits
  ∧ (Number_toString idClock ∉ (id <$> habits) →
     deleteHabit (Number_toString idClock)
       (addHabit idClock createdClock name emoji color habits) = habits).
Proof.
  assert (Hdel : deleteHabit (Number_toString idClock)
            (addHabit idClock createdClock name emoji color habits)
          = deleteHabit (Number_toString idClock) habits).
  { unfold deleteHabit, addHabit. rewrite filter_app.
    rewrite filter_cons_False by (simpl; by intros []).
    by rewrite filter_nil, app_nil_r. }
  split; [done|]. intros Hnew. rewrite Hdel. by apply deleteHabit_absent.
Qed.

Lemma addHabit_deleteHabit_witness :
  (Number_toString 1704542400000 ∉ (id <$> [scenarioC]))
  ∧ deleteHabit (Number_toString 1704542400000)
      (addHabit 1704542400000 1704542400000 "Gym" "" "" [scenarioC]) = [scenarioC].
Proof.
  assert (H : Number_toString 1704542400000 ∉ (id <$> [scenarioC])) by compute_done.
  split; [exact H|].
  exact (proj2 (addHabit_deleteHabit [scenarioC] 1704542400000 1704542400000
                  "Gym" "" "") H).
Defined.

(** The record a toggle makes of a habit. *)
Lemma toggled_completed habit date date' :
  truthy (<[date := negb (completed habit date)]> (completions habit) !! date')
  = if decide (date = date') then negb (completed habit date)
    else completed habit date'.
Proof.
  case_decide as Hd.
  - subst. by rewrite lookup_insert_eq.
  - by rewrite lookup_insert_ne.
Qed.


End RepositoryMore.

(** ** More on the statistics *)

Section StatisticsMore.
Local Open Scope Z_scope.
Implicit Types (habits : list Habit) (habit : Habit) (date : string).

Lemma totalCompletions_size tz now habit :
  totalCompletions (getHabitStats tz now habit)
  = Z.of_nat (size (filter (λ kv : string * bool, kv.2 = true) (completions habit))).
Proof. unfold getHabitStats. simpl. by rewrite count_true_values. Qed.

Lemma size_true_insert_true (m : gmap string bool) date :
  m !! date ≠ Some true →
  size (filter (λ kv : string * bool, kv.2 = true) (<[date := true]> m))
  = S (size (filter (λ kv : string * bool, kv.2 = true) m)).
Proof.
  intros Hm. rewrite map_filter_insert_True by done.
  apply map_size_insert_None. apply eq_None_not_Some. intros [b Hb].
  apply map_lookup_filter_Some in Hb as [Hb Htrue]. simpl in Htrue. congruence.
Qed.

Lemma size_true_insert_false (m : gmap string bool) date :
  m !! date = Some true →
  S (size (filter (λ kv : string * bool, kv.2 = true) (<[date := false]> m)))
  = size (filter (λ kv : string * bool, kv.2 = true) m).
Proof.
  intros Hm. rewrite map_filter_insert_False by done.
  rewrite map_filter_delete, map_size_delete.
  assert (Hf : filter (λ kv : string * bool, kv.2 = true) m !! date = Some true)
    by (by apply map_lookup_filter_Some).
  rewrite Hf. simpl.
  assert (size (filter (λ kv : string * bool, kv.2 = true) m) ≠ 0%nat); [|lia].
  intros Hz. apply map_size_empty_iff in Hz. by rewrite Hz in Hf.
Qed.

(** X4: what a toggle does to the counts of the habit it names: the
    number of completions goes up by one where the day was not completed
    and down by one where it was; the number of days with an entry goes
    up by one where the day had no entry and stays otherwise. *)
Theorem toggleCompletion_counts tz now habits i habit date :
  habits !! i = Some habit →
  ∃ habit',
    toggleCompletion (id habit) date habits !! i = Some habit'
    ∧ totalCompletions (getHabitStats tz now habit')
      = totalCompletions (getHabitStats tz now habit)
        + (if completed habit date then -1 else 1)
    ∧ Z.of_nat (totalDays habit')
      = Z.of_nat (totalDays habit)
        + (if completions habit !! date is Some _ then 0 else 1).
Proof.
  intros Hi. eexists. split; [by apply toggleCompletion_lookup|].
  rewrite decide_True by done. rewrite !totalCompletions_size.
  unfold totalDays. rewrite !count_keys. simpl. split.
  - unfold completed, truthy.
    destruct (completions habit !! date) as [[]|] eqn:Hd; simpl.
    + rewrite <-(size_true_insert_false _ date Hd). lia.
    + rewrite size_true_insert_true by congruence. lia.
    + rewrite size_true_insert_true by congruence. lia.
  - rewrite map_size_insert.
    destruct (completions habit !! date); simpl; lia.
Qed.

Lemma toggleCompletion_counts_witness :
  ∃ habit',
    toggleCompletion (id scenarioC) "2024-01-05" [scenarioC] !! 0%nat = Some habit'
    ∧ totalCompletions (getHabitStats (fixedZone 0) 0 habit')
      = totalCompletions (getHabitStats (fixedZone 0) 0 scenarioC)
        + (if completed scenarioC "2024-01-05" then -1 else 1)
    ∧ Z.of_nat (totalDays habit')
      = Z.of_nat (totalDays scenarioC)
        + (if completions scenarioC !! "2024-01-05"%string is Some _ then 0 else 1).
Proof.
  apply (toggleCompletion_counts (fixedZone 0) 0 [scenarioC] 0%nat scenarioC
           "2024-01-05").
  reflexivity.
Defined.

(** The values the scan reads are the values of the map, in another
    order. *)
Lemma sortedValues_values habit :
  sortedValues habit ≡ₚ Object_values (completions habit).
Proof.
  unfold sortedValues. rewrite sortedDates_keys.
  unfold Object_keys, Object_values. rewrite <-list_fmap_compose.
  assert (completed habit ∘ fst <$> map_to_list (completions habit)
          = (map_to_list (completions habit)).*2) as ->; [|done].
  apply list_fmap_ext. intros i [k b] Hi. simpl.
  apply list_elem_of_lookup_2, elem_of_map_to_list in Hi.
  unfold completed. by rewrite Hi.
Qed.

Lemma trueRun_count vs start len :
  trueRun vs start len → (start + len ≤ length vs)%nat →
  (len ≤ length (filter (λ b : bool, b = true) vs))%nat.
Proof.
  intros Hrun Hlen.
  rewrite <-(take_drop start vs), filter_app, length_app.
  rewrite <-(take_drop len (drop start vs)), filter_app, length_app.
  assert (Hall : take len (drop start vs) = replicate len true).
  { symmetry. apply replicate_as_Forall. split.
    - rewrite length_take, length_drop. lia.
    - apply Forall_lookup. intros j b Hj.
      apply lookup_take_Some in Hj as [Hj Hlt].
      rewrite lookup_drop in Hj. rewrite Hrun in Hj by lia. congruence. }
  rewrite Hall.
  assert (length (filter (λ b : bool, b = true) (replicate len true)) = len).
  { clear. induction len as [|len IH]; [done|].
    cbn [replicate]. rewrite filter_cons_True by done.
    cbn [length]. by rewrite IH. }
  lia.
Qed.

(** X5: the statistics of a habit are ordered: the current streak is at
    most the longest streak, the longest streak at most the number of
    completions, and that at most the number of days with an entry. *)
Theorem getHabitStats_ordered tz now habit :
  0 ≤ currentStreak (getHabitStats tz now habit)
    ≤ longestStreak (getHabitStats tz now habit)
  ∧ longestStreak (getHabitStats tz now habit)
    ≤ totalCompletions (getHabitStats tz now habit)
  ∧ totalCompletions (getHabitStats tz now habit) ≤ Z.of_nat (totalDays habit).
Proof.
  destruct (longestStreak_sortedValues tz now habit) as (n & Hn & [[start Hrun] Hmax]).
  assert (Hcount : (n ≤ size (filter (λ kv : string * bool, kv.2 = true)
                                (completions habit)))%nat).
  { rewrite <-count_true_values, <-sortedValues_values.
    destruct (decide (n = 0%nat)) as [->|Hn0]; [lia|].
    apply (trueRun_count _ start); [done|].
    by apply trueRun_bound; [|lia]. }
  rewrite Hn, totalCompletions_size. unfold totalDays. rewrite count_keys.
  split_and!.
  - change (currentStreak (getHabitStats tz now habit))
      with (calculateStreak tz now habit).
    rewrite calculateStreak_unfold. by case_match.
  - change (currentStreak (getHabitStats tz now habit))
      with (calculateStreak tz now habit).
    rewrite calculateStreak_unfold.
    destruct (completed habit _) eqn:Hc; [|lia].
    set (d0 := formatDate _) in Hc.
    assert (Hin : d0 ∈ sortedDates habit).
    { apply elem_of_sortedDates. unfold completed in Hc.
      destruct (completions habit !! d0); [by eexists|done]. }
    apply list_elem_of_lookup in Hin as [j Hj].
    assert (trueRun (sortedValues habit) j 1%nat) as Hone.
    { intros j' Hj'. replace j' with j by lia.
      unfold sortedValues. by rewrite list_lookup_fmap, Hj; simpl; rewrite Hc. }
    apply Hmax in Hone. lia.
  - lia.
  - pose proof (map_size_filter (λ kv : string * bool, kv.2 = true)
                  (completions habit)). lia.
Qed.

(** X6: a toggle of the day that [calculateStreak] examines turns the
    current streak of the habit from 0 to 1 or from 1 to 0. *)
Theorem toggleCompletion_today_flips tz now habits i habit :
  habits !! i = Some habit →
  ∃ habit',
    toggleCompletion (id habit)
      (formatDate (setDate tz now (getDate tz now - 0))) habits !! i = Some habit'
    ∧ calculateStreak tz now habit' = 1 - calculateStreak tz now habit.
Proof.
  intros Hi. eexists. split; [by apply toggleCompletion_lookup|].
  rewrite decide_True by done. rewrite !calculateStreak_unfold.
  unfold completed at 1. cbn [completions]. rewrite lookup_insert_eq.
  cbn [truthy]. by destruct (completed habit _).
Qed.

Lemma toggleCompletion_today_flips_witness :
  ∃ habit',
    toggleCompletion (id scenarioC)
      (formatDate (setDate (fixedZone 0) 1704542400000
                     (getDate (fixedZone 0) 1704542400000 - 0)))
      [scenarioC] !! 0%nat = Some habit'
    ∧ calculateStreak (fixedZone 0) 1704542400000 habit'
      = 1 - calculateStreak (fixedZone 0) 1704542400000 scenarioC.
Proof.
  apply (toggleCompletion_today_flips (fixedZone 0) 1704542400000 [scenarioC]
           0%nat scenarioC).
  reflexivity.
Defined.

End StatisticsMore.

(** ** The statistics of the collection and the progress overview *)

Section Overview.
Local Open Scope Z_scope.
Implicit Types (habits : list Habit) (habit : Habit).

Lemma habitStats_snoc tz clock habits habit :
  habitStats tz clock (habits ++ [habit])
  = <[id habit := getHabitStats tz (clock (length habits)) habit]>
      (habitStats tz clock habits).
Proof.
  unfold habitStats. rewrite imap_app, foldl_app. simpl.
  by rewrite Nat.add_0_r.
Qed.

(** Every entry of [habitStats] is the statistics of a habit of the
    collection. *)
Lemma habitStats_values tz clock habits i stats :
  habitStats tz clock habits !! i = Some stats →
  ∃ k habit, habits !! k = Some habit ∧ id habit = i
             ∧ stats = getHabitStats tz (clock k) habit.
Proof.
  induction habits as [|habit habits IH] using rev_ind; [done|].
  rewrite habitStats_snoc. intros Hl.
  destruct (decide (id habit = i)) as [Hid|Hid].
  - rewrite Hid, lookup_insert_eq in Hl. injection Hl as <-.
    exists (length habits), habit. split_and!; [|done..].
    by rewrite lookup_app_r, Nat.sub_diag by lia.
  - rewrite lookup_insert_ne in Hl by done.
    destruct (IH Hl) as (k & h & Hk & ? & ?). exists k, h.
    split_and!; [|done..]. by apply lookup_app_l_Some.
Qed.

Lemma habitStats_dom tz clock habits i :
  is_Some (habitStats tz clock habits !! i) ↔ i ∈ id <$> habits.
Proof.
  induction habits as [|h habits IH] using rev_ind.
  - unfold habitStats. simpl. rewrite lookup_empty, elem_of_nil.
    split; [by intros [? ?]|done].
  - rewrite habitStats_snoc, fmap_app, elem_of_app. simpl.
    rewrite list_elem_of_singleton.
    destruct (decide (id h = i)) as [Hid|Hid].
    + rewrite Hid, lookup_insert_eq. split; [by right|by eexists].
    + rewrite lookup_insert_ne by done. rewrite IH.
      split; [by left|]. by intros [?|?].
Qed.

Lemma habitStats_last tz clock habits k habit :
  habits !! k = Some habit →
  (∀ k' habit', (k < k')%nat → habits !! k' = Some habit' →
                id habit' ≠ id habit) →
  habitStats tz clock habits !! id habit
  = Some (getHabitStats tz (clock k) habit).
Proof.
  revert k habit. induction habits as [|h habits IH] using rev_ind; [done|].
  intros k habit Hk Hlater. rewrite habitStats_snoc.
  destruct (decide (k = length habits)) as [->|Hne].
  - rewrite lookup_app_r, Nat.sub_diag in Hk by lia. injection Hk as ->.
    by rewrite lookup_insert_eq.
  - assert (Hlt : (k < length habits)%nat).
    { apply lookup_lt_Some in Hk. rewrite length_app in Hk. simpl in Hk. lia. }
    rewrite lookup_app_l in Hk by done.
    rewrite lookup_insert_ne.
    + apply IH; [done|]. intros k' habit' Hk' Hl.
      apply (Hlater k'); [done|]. by apply lookup_app_l_Some.
    + apply (Hlater (length habits)); [done|].
      by rewrite lookup_app_r, Nat.sub_diag by lia.
Qed.

Lemma habitStats_NoDup tz clock habits :
  NoDup (id <$> habits) →
  ∀ k habit, habits !! k = Some habit →
    habitStats tz clock habits !! id habit
    = Some (getHabitStats tz (clock k) habit).
Proof.
  intros Hnd k habit Hk. apply habitStats_last; [done|].
  intros k' habit' Hlt Hk' Hid.
  assert (k = k'); [|lia].
  apply (NoDup_lookup _ _ _ (id habit) Hnd).
  - by rewrite list_lookup_fmap, Hk.
  - by rewrite list_lookup_fmap, Hk', <-Hid.
Qed.

(** X7: [habitStats] has an entry for exactly the ids of the collection,
    and the entry of an id is the statistics of the last habit that has
    it: of the habit itself where ids are distinct. *)
Theorem habitStats_lookup tz clock habits :
  (∀ i, is_Some (habitStats tz clock habits !! i) ↔ i ∈ id <$> habits)
  ∧ (∀ k habit,
       habits !! k = Some habit →
       (∀ k' habit', (k < k')%nat → habits !! k' = Some habit' →
                     id habit' ≠ id habit) →
       habitStats tz clock habits !! id habit
       = Some (getHabitStats tz (clock k) habit))
  ∧ (NoDup (id <$> habits) →
     ∀ k habit, habits !! k = Some habit →
       habitStats tz clock habits !! id habit
       = Some (getHabitStats tz (clock k) habit)).
Proof.
  split_and!.
  - apply habitStats_dom.
  - apply habitStats_last.
  - apply habitStats_NoDup.
Qed.

Lemma habitStats_lookup_witness :
  NoDup (id <$> [scenarioC])
  ∧ habitStats (fixedZone 0) (λ _, 0) [scenarioC] !! id scenarioC
    = Some (getHabitStats (fixedZone 0) 0 scenarioC).
Proof.
  assert (H : NoDup (id <$> [scenarioC])) by compute_done.
  split; [exact H|].
  apply (proj2 (proj2 (habitStats_lookup (fixedZone 0) (λ _, 0) [scenarioC])) H
           0%nat scenarioC).
  reflexivity.
Defined.

(** *** The figures of the overview *)

Lemma Math_max_snoc xs x :
  Math_max (xs ++ [x]) = Some (from_option (Z.max x) x (Math_max xs)).
Proof. unfold Math_max. by rewrite foldl_app. Qed.

(** [Math.max] returns an argument that no argument exceeds. *)
Lemma Math_max_spec xs :
  match Math_max xs with
  | None => xs = []
  | Some b => b ∈ xs ∧ Forall (λ x, x ≤ b) xs
  end.
Proof.
  induction xs as [|x xs IH] using rev_ind; [done|].
  rewrite Math_max_snoc. destruct (Math_max xs) as [b|]; simpl.
  - destruct IH as [Hin Hall]. split.
    + destruct (Z.max_spec x b) as [[_ ->]|[_ ->]]; set_solver.
    + apply Forall_app. split.
      * eapply Forall_impl; [exact Hall|]. simpl. lia.
      * apply Forall_singleton. lia.
  - subst xs. split; [set_solver|]. apply Forall_singleton. lia.
Qed.



(** What [habitStats[habit.id]?.field || 0] reads from the statistics of
    the collection is a field of the statistics of one of its habits. *)
Lemma statOr0_habitStats {A} (field : HabitStats → A) zero tz clock habits habit :
  habit ∈ habits →
  ∃ k habit', habits !! k = Some habit'
    ∧ statOr0 field zero (habitStats tz clock habits) habit
      = field (getHabitStats tz (clock k) habit').
Proof.
  intros Hin. unfold statOr0.
  destruct (proj2 (habitStats_dom tz clock habits (id habit))) as [stats Hs].
  { by apply list_elem_of_fmap_2. }
  rewrite Hs. simpl.
  apply habitStats_values in Hs as (k & habit' & Hk & _ & ->). by exists k, habit'.
Qed.


Lemma longestStreak_nonneg tz now habit :
  0 ≤ longestStreak (getHabitStats tz now habit).
Proof. destruct (longestStreak_sortedValues tz now habit) as (n & -> & _). lia. Qed.



(** X9: for a collection that is not empty, [StatsPanel] and [App]
    compute the same figures from the statistics of the collection. *)
Theorem StatsPanel_overview_App tz clock habits :
  StatsPanel_overview habits (habitStats tz clock habits)
  = if decide (habits = []) then None
    else Some (App_overview habits (habitStats tz clock habits)).
Proof.
  unfold StatsPanel_overview, App_overview.
  destruct habits as [|habit0 habits]; [done|].
  rewrite decide_False by done. rewrite (decide_False (P := _ = [])) by done.
  set (hs := habit0 :: habits).
  assert ((0 <? Z.of_nat (length hs)) = true) as -> by (apply Z.ltb_lt; simpl; lia).
  do 2 f_equal. rewrite Math_max_snoc.
  pose proof (Math_max_spec (statOr0 longestStreak 0 (habitStats tz clock hs) <$> hs))
    as Hmax.
  destruct (Math_max _) as [best|]; [|done]. simpl. f_equal.
  destruct Hmax as [Hin _]. apply list_elem_of_fmap in Hin as (habit & -> & Hin).
  destruct (statOr0_habitStats longestStreak 0 tz clock hs habit Hin)
    as (k & habit' & _ & ->).
  pose proof (longestStreak_nonneg tz (clock k) habit'). lia.
Qed.

End Overview.

(** ** Day identifiers *)

Section DayIdentifiers.
Local Open Scope Z_scope.

(** *** The digits of [pad] *)

Lemma pretty_N_go_digit (x : N) s :
  (0 < x < 10)%N → pretty_N_go x s = String (pretty_N_char x) s.
Proof.
  intros Hx. rewrite pretty_N_go_step by lia.
  rewrite N.div_small, N.mod_small by lia. apply pretty_N_go_0.
Qed.

Lemma pretty_N_go_digits (x : N) s :
  (10 ≤ x)%N →
  pretty_N_go x s = pretty_N_go (x `div` 10) (String (pretty_N_char (x `mod` 10)) s).
Proof. intros Hx. apply pretty_N_go_step. lia. Qed.

Lemma digit_0 : digit 0 = "0"%char.
Proof. reflexivity. Qed.

Lemma N_div10_pos (x : N) : (10 ≤ x)%N → (0 < x `div` 10)%N.
Proof. intros Hx. apply N.div_str_pos. lia. Qed.

Lemma N_div10_lt (x k : N) : (x < 10 * k)%N → (x `div` 10 < k)%N.
Proof. intros Hx. apply N.Div0.div_lt_upper_bound. lia. Qed.

Lemma pad_2 n :
  0 ≤ n < 100 →
  pad 2 n = String (digit (n `div` 10)) (String (digit (n `mod` 10)) EmptyString).
Proof.
  intros Hn. unfold pad, digit. cbv zeta.
  rewrite Z2N.inj_div, Z2N.inj_mod by lia.
  change (Z.to_N 10) with 10%N.
  assert (Hx : (Z.to_N n < 100)%N) by lia. revert Hx.
  generalize (Z.to_N n). clear n Hn. intros x Hx.
  unfold pretty, pretty_N.
  destruct (decide (x = 0%N)) as [->|H0]; [done|].
  destruct (decide (x < 10)%N) as [H1|H1].
  - rewrite pretty_N_go_digit by lia.
    by rewrite N.div_small, N.mod_small by lia.
  - rewrite pretty_N_go_digits by lia.
    rewrite pretty_N_go_digit; [done|].
    split; [apply N_div10_pos|apply N_div10_lt]; lia.
Qed.

Lemma pad_4 n :
  0 ≤ n < 10000 →
  pad 4 n = String (digit (n `div` 1000))
              (String (digit ((n `div` 100) `mod` 10))
                 (String (digit ((n `div` 10) `mod` 10))
                    (String (digit (n `mod` 10)) EmptyString))).
Proof.
  intros Hn. unfold pad, digit. cbv zeta.
  rewrite !Z2N.inj_mod, !Z2N.inj_div by (try apply Z.div_pos; lia).
  change (Z.to_N 10) with 10%N. change (Z.to_N 100) with 100%N.
  change (Z.to_N 1000) with 1000%N.
  assert (Hx : (Z.to_N n < 10000)%N) by lia. revert Hx.
  generalize (Z.to_N n). clear n Hn. intros x Hx.
  assert (H100 : (x `div` 100 = (x `div` 10) `div` 10)%N)
    by (by rewrite N.Div0.div_div).
  assert (H1000 : (x `div` 1000 = ((x `div` 10) `div` 10) `div` 10)%N)
    by (by rewrite !N.Div0.div_div).
  rewrite H100, H1000.
  unfold pretty, pretty_N.
  destruct (decide (x = 0%N)) as [->|H0]; [done|].
  destruct (decide (x < 10)%N) as [H1|H1].
  { rewrite pretty_N_go_digit by lia.
    by rewrite (N.div_small x 10), (N.mod_small x 10) by lia. }
  rewrite pretty_N_go_digits by lia.
  pose proof (N_div10_pos x ltac:(lia)). pose proof (N_div10_lt x 1000 ltac:(lia)).
  revert H H2. generalize (pretty_N_char (x `mod` 10)).
  generalize (x `div` 10)%N. clear. intros x c0 Hpos Hx.
  destruct (decide (x < 10)%N) as [H1|H1].
  { rewrite pretty_N_go_digit by lia.
    by rewrite (N.div_small x 10), (N.mod_small x 10) by lia. }
  rewrite pretty_N_go_digits by lia.
  pose proof (N_div10_pos x ltac:(lia)). pose proof (N_div10_lt x 100 ltac:(lia)).
  revert H H0. generalize (pretty_N_char (x `mod` 10)).
  generalize (x `div` 10)%N. clear. intros x c1 Hpos Hx.
  destruct (decide (x < 10)%N) as [H1|H1].
  { rewrite pretty_N_go_digit by lia.
    by rewrite (N.div_small x 10), (N.mod_small x 10) by lia. }
  rewrite pretty_N_go_digits by lia.
  rewrite pretty_N_go_digit; [done|].
  split; [apply N_div10_pos|apply N_div10_lt]; lia.
Qed.

(** *** [formatDate], digit by digit *)

Lemma head_String_split_ne c a s :
  a ≠ c →
  default EmptyString (head (String_split c (String a s)))
  = String a (default EmptyString (head (String_split c s))).
Proof.
  intros Hne. cbn [String_split]. rewrite decide_False by done.
  by destruct (String_split c s).
Qed.

Lemma head_String_split_eq c s :
  default EmptyString (head (String_split c (String c s))) = EmptyString.
Proof. cbn [String_split]. by rewrite decide_True. Qed.

Lemma append_cons a s1 s2 : String a s1 +:+ s2 = String a (s1 +:+ s2).
Proof. reflexivity. Qed.

Lemma append_nil s : EmptyString +:+ s = s.
Proof. reflexivity. Qed.

Lemma digit_ne_T n : digit n ≠ "T"%char.
Proof. unfold digit, pretty_N_char. by repeat case_match. Qed.

(** For a date of a year from 0 to 9999, [formatDate] is the year, the
    month and the day of the month in UTC, in ten characters. *)
Lemma formatDate_dayId t :
  0 ≤ YearFromTime t ≤ 9999 →
  formatDate t = dayId (YearFromTime t) (MonthFromTime t) (DateFromTime t).
Proof.
  intros Hy. pose proof (MonthFromTime_range t). pose proof (DateFromTime_range t).
  unfold formatDate, toISOString, isoYear.
  destruct (Z.leb_spec 0 (YearFromTime t)); [|lia].
  destruct (Z.leb_spec (YearFromTime t) 9999); [|lia].
  cbn [andb]. rewrite pad_4 by lia. rewrite !(pad_2 (_ + 1)), !(pad_2 (DateFromTime t)) by lia.
  rewrite !append_cons, !append_nil.
  rewrite !head_String_split_ne by (apply digit_ne_T || done).
  by rewrite head_String_split_eq.
Qed.

(** *** Identifiers as numbers *)

Lemma digit_inj a b : 0 ≤ a < 10 → 0 ≤ b < 10 → digit a = digit b → a = b.
Proof.
  intros Ha Hb Hd. apply pretty_N_char_inj in Hd; lia.
Qed.

Lemma digit_compare a b :
  0 ≤ a < 10 → 0 ≤ b < 10 → Ascii.compare (digit a) (digit b) = (a ?= b).
Proof.
  intros Ha Hb.
  assert (a = 0 ∨ a = 1 ∨ a = 2 ∨ a = 3 ∨ a = 4 ∨ a = 5 ∨ a = 6 ∨ a = 7
          ∨ a = 8 ∨ a = 9) as Hca by lia.
  assert (b = 0 ∨ b = 1 ∨ b = 2 ∨ b = 3 ∨ b = 4 ∨ b = 5 ∨ b = 6 ∨ b = 7
          ∨ b = 8 ∨ b = 9) as Hcb by lia.
  clear Ha Hb. destruct_or!; subst; reflexivity.
Qed.

(** The four digits of a number below 10000, and the two of a number
    below 100. *)
Lemma digits_4 y :
  0 ≤ y < 10000 →
  y = 1000 * (y `div` 1000) + 100 * ((y `div` 100) `mod` 10)
      + 10 * ((y `div` 10) `mod` 10) + y `mod` 10
  ∧ 0 ≤ y `div` 1000 < 10 ∧ 0 ≤ (y `div` 100) `mod` 10 < 10
  ∧ 0 ≤ (y `div` 10) `mod` 10 < 10 ∧ 0 ≤ y `mod` 10 < 10.
Proof. intros Hy. Z.div_mod_to_equations. lia. Qed.

Lemma digits_2 n :
  0 ≤ n < 100 →
  n = 10 * (n `div` 10) + n `mod` 10
  ∧ 0 ≤ n `div` 10 < 10 ∧ 0 ≤ n `mod` 10 < 10.
Proof. intros Hn. Z.div_mod_to_equations. lia. Qed.

Lemma dayId_compare y1 m1 d1 y2 m2 d2 :
  0 ≤ y1 < 10000 → 0 ≤ m1 + 1 < 100 → 0 ≤ d1 < 100 →
  0 ≤ y2 < 10000 → 0 ≤ m2 + 1 < 100 → 0 ≤ d2 < 100 →
  String.compare (dayId y1 m1 d1) (dayId y2 m2 d2)
  = (dayNumber y1 m1 d1 ?= dayNumber y2 m2 d2).
Proof.
  intros Hy1 Hm1 Hd1 Hy2 Hm2 Hd2. unfold dayId, dayNumber.
  destruct (digits_4 y1 Hy1) as (Ey1 & ? & ? & ? & ?).
  destruct (digits_4 y2 Hy2) as (Ey2 & ? & ? & ? & ?).
  destruct (digits_2 (m1 + 1) Hm1) as (Em1 & ? & ?).
  destruct (digits_2 (m2 + 1) Hm2) as (Em2 & ? & ?).
  destruct (digits_2 d1 Hd1) as (Ed1 & ? & ?).
  destruct (digits_2 d2 Hd2) as (Ed2 & ? & ?).
  cbn [String.compare]. rewrite !digit_compare by done.
  change (Ascii.compare "-" "-") with Eq. cbv iota.
  repeat match goal with
         | |- context [?a ?= ?b] =>
             lazymatch a with
             | Z.add _ _ => fail
             | _ => destruct (Z.compare_spec a b); cbv iota
             end
         end;
    symmetry;
    first [ apply Z.compare_eq_iff | apply Z.compare_lt_iff | apply Z.compare_gt_iff ];
    lia.
Qed.

Lemma dayId_inj y1 m1 d1 y2 m2 d2 :
  0 ≤ y1 < 10000 → 0 ≤ m1 + 1 < 100 → 0 ≤ d1 < 100 →
  0 ≤ y2 < 10000 → 0 ≤ m2 + 1 < 100 → 0 ≤ d2 < 100 →
  dayId y1 m1 d1 = dayId y2 m2 d2 → y1 = y2 ∧ m1 = m2 ∧ d1 = d2.
Proof.
  intros Hy1 Hm1 Hd1 Hy2 Hm2 Hd2 Heq.
  assert (Hc : dayNumber y1 m1 d1 = dayNumber y2 m2 d2).
  { apply Z.compare_eq_iff. rewrite <-dayId_compare, Heq by done.
    clear. induction (dayId y2 m2 d2) as [|a s IH]; [done|].
    simpl. unfold Ascii.compare. by rewrite N.compare_refl. }
  unfold dayNumber in Hc. lia.
Qed.

(** *** Identifiers and days *)

(** The year, the month and the day of the month are those of the day. *)
Lemma YearFromTime_Day t1 t2 : Day t1 = Day t2 → YearFromTime t1 = YearFromTime t2.
Proof. intros Hd. unfold YearFromTime. by rewrite Hd. Qed.

Lemma MonthFromTime_Day t1 t2 : Day t1 = Day t2 → MonthFromTime t1 = MonthFromTime t2.
Proof.
  intros Hd. unfold MonthFromTime, DayWithinYear, InLeapYear.
  by rewrite Hd, (YearFromTime_Day t1 t2 Hd).
Qed.

Lemma DateFromTime_Day t1 t2 : Day t1 = Day t2 → DateFromTime t1 = DateFromTime t2.
Proof.
  intros Hd. unfold DateFromTime, DayWithinYear, InLeapYear.
  by rewrite Hd, (YearFromTime_Day t1 t2 Hd), (MonthFromTime_Day t1 t2 Hd).
Qed.

Lemma Day_fields t :
  Day t = DayFromYear (YearFromTime t)
          + monthStart (MonthFromTime t) (InLeapYear t) + DateFromTime t - 1.
Proof. unfold DateFromTime, DayWithinYear. lia. Qed.

Lemma DayFromYear_mono y1 y2 : y1 ≤ y2 → DayFromYear y1 ≤ DayFromYear y2.
Proof. intros Hy. unfold DayFromYear. Z.div_mod_to_equations. lia. Qed.

Lemma YearFromTime_mono t1 t2 : Day t1 ≤ Day t2 → YearFromTime t1 ≤ YearFromTime t2.
Proof.
  intros Hd. pose proof (YearFromTime_spec t1). pose proof (YearFromTime_spec t2).
  destruct (decide (YearFromTime t1 ≤ YearFromTime t2)) as [|Hgt]; [done|].
  pose proof (DayFromYear_mono (YearFromTime t2 + 1) (YearFromTime t1) ltac:(lia)).
  lia.
Qed.

(** The first day of the month of [t] is not after [t], and the first
    day of the next month is. *)
Lemma MonthFromTime_spec t :
  monthStart (MonthFromTime t) (InLeapYear t) ≤ DayWithinYear t
    < monthStart (MonthFromTime t) (InLeapYear t)
      + DaysInMonth (MonthFromTime t) (InLeapYear t).
Proof.
  pose proof (DayWithinYear_range t) as Hd. revert Hd.
  unfold MonthFromTime, InLeapYear. generalize (DayWithinYear t). intros d Hd.
  destruct (DaysInYear (YearFromTime t) =? 366) eqn:Hleap.
  - apply Z.eqb_eq in Hleap. rewrite Hleap in Hd.
    repeat match goal with
           | |- context [?a <? ?b] => destruct (Z.ltb_spec a b); simpl
           end; lia.
  - assert (DaysInYear (YearFromTime t) = 365) as Hlen.
    { apply Z.eqb_neq in Hleap. revert Hleap. unfold DaysInYear.
      repeat case_match; lia. }
    rewrite Hlen in Hd.
    repeat match goal with
           | |- context [?a <? ?b] => destruct (Z.ltb_spec a b); simpl
           end; lia.
Qed.

Lemma monthStart_mono m1 m2 leap :
  0 ≤ m1 → m1 < m2 ≤ 11 → 0 ≤ leap ≤ 1 →
  monthStart m1 leap + DaysInMonth m1 leap ≤ monthStart m2 leap.
Proof.
  intros H1 H2 Hl.
  assert (m1 = 0 ∨ m1 = 1 ∨ m1 = 2 ∨ m1 = 3 ∨ m1 = 4 ∨ m1 = 5 ∨ m1 = 6
          ∨ m1 = 7 ∨ m1 = 8 ∨ m1 = 9 ∨ m1 = 10) as Hc1 by lia.
  assert (m2 = 1 ∨ m2 = 2 ∨ m2 = 3 ∨ m2 = 4 ∨ m2 = 5 ∨ m2 = 6
          ∨ m2 = 7 ∨ m2 = 8 ∨ m2 = 9 ∨ m2 = 10 ∨ m2 = 11) as Hc2 by lia.
  destruct_or!; subst; simpl; lia.
Qed.

Lemma InLeapYear_range t : 0 ≤ InLeapYear t ≤ 1.
Proof. unfold InLeapYear. case_match; lia. Qed.

(** A later day has a greater identifier, read as a number. *)
Lemma dayNumber_lt t1 t2 :
  Day t1 < Day t2 →
  dayNumber (YearFromTime t1) (MonthFromTime t1) (DateFromTime t1)
  < dayNumber (YearFromTime t2) (MonthFromTime t2) (DateFromTime t2).
Proof.
  intros Hd. unfold dayNumber.
  pose proof (YearFromTime_mono t1 t2 ltac:(lia)) as Hy.
  pose proof (MonthFromTime_range t1). pose proof (MonthFromTime_range t2).
  pose proof (DateFromTime_range t1). pose proof (DateFromTime_range t2).
  destruct (decide (YearFromTime t1 = YearFromTime t2)) as [Ey|Hne]; [|lia].
  rewrite Ey.
  pose proof (MonthFromTime_spec t1) as Hm1.
  pose proof (MonthFromTime_spec t2) as Hm2.
  pose proof (InLeapYear_range t1) as Hl.
  assert (El : InLeapYear t1 = InLeapYear t2) by (unfold InLeapYear; by rewrite Ey).
  assert (Hw : DayWithinYear t1 < DayWithinYear t2)
    by (unfold DayWithinYear; rewrite Ey; lia).
  rewrite <-El in Hm2.
  destruct (Z.lt_trichotomy (MonthFromTime t1) (MonthFromTime t2)) as [Hlt|[Em|Hgt]].
  - lia.
  - unfold DateFromTime. rewrite <-El, Em. lia.
  - pose proof (monthStart_mono (MonthFromTime t2) (MonthFromTime t1)
                  (InLeapYear t1) ltac:(lia) ltac:(lia) Hl). lia.
Qed.

Lemma formatDate_days t1 t2 :
  0 ≤ YearFromTime t1 ≤ 9999 → 0 ≤ YearFromTime t2 ≤ 9999 →
  formatDate t1 = formatDate t2 → Day t1 = Day t2.
Proof.
  intros Hy1 Hy2. rewrite !formatDate_dayId by done.
  pose proof (MonthFromTime_range t1). pose proof (MonthFromTime_range t2).
  pose proof (DateFromTime_range t1). pose proof (DateFromTime_range t2).
  intros Heq. apply dayId_inj in Heq as (Ey & Em & Ed); [|lia..].
  rewrite (Day_fields t1), (Day_fields t2). unfold InLeapYear.
  by rewrite Ey, Em, Ed.
Qed.

Lemma formatDate_chronological_days t1 t2 :
  0 ≤ YearFromTime t1 ≤ 9999 → 0 ≤ YearFromTime t2 ≤ 9999 →
  Day t1 ≤ Day t2 → string_le (formatDate t1) (formatDate t2).
Proof.
  intros Hy1 Hy2 Hd. rewrite !formatDate_dayId by done.
  pose proof (MonthFromTime_range t1). pose proof (MonthFromTime_range t2).
  pose proof (DateFromTime_range t1). pose proof (DateFromTime_range t2).
  unfold string_le, String.leb. rewrite dayId_compare by lia.
  destruct (Z.lt_trichotomy (Day t1) (Day t2)) as [Hlt|[Heq|Hgt]]; [| |lia].
  - pose proof (dayNumber_lt t1 t2 Hlt) as Hn.
    apply Z.compare_lt_iff in Hn. by rewrite Hn.
  - by rewrite (YearFromTime_Day _ _ Heq), (MonthFromTime_Day _ _ Heq),
      (DateFromTime_Day _ _ Heq), Z.compare_refl.
Qed.

(** X10: for dates of the years 0 to 9999, [formatDate] gives the same
    identifier exactly for instants of the same day in UTC; so [isToday]
    holds of a date exactly when it is of the current UTC day. *)
Theorem formatDate_same_day t1 t2 :
  0 ≤ YearFromTime t1 ≤ 9999 → 0 ≤ YearFromTime t2 ≤ 9999 →
  (formatDate t1 = formatDate t2 ↔ Day t1 = Day t2)
  ∧ (isToday t2 t1 = true ↔ Day t1 = Day t2).
Proof.
  intros Hy1 Hy2.
  assert (Hiff : formatDate t1 = formatDate t2 ↔ Day t1 = Day t2).
  { split; [by apply formatDate_days|].
    intros Hd. rewrite !formatDate_dayId by done.
    by rewrite (YearFromTime_Day _ _ Hd), (MonthFromTime_Day _ _ Hd),
      (DateFromTime_Day _ _ Hd). }
  split; [done|]. unfold isToday. by rewrite bool_decide_eq_true.
Qed.

Lemma formatDate_same_day_witness :
  0 ≤ YearFromTime 1704542400000 ≤ 9999
  ∧ 0 ≤ YearFromTime 1704499200000 ≤ 9999
  ∧ (formatDate 1704542400000 = formatDate 1704499200000
     ↔ Day 1704542400000 = Day 1704499200000).
Proof.
  assert (H1 : 0 ≤ YearFromTime 1704542400000 ≤ 9999) by (vm_compute; split; discriminate).
  assert (H2 : 0 ≤ YearFromTime 1704499200000 ≤ 9999) by (vm_compute; split; discriminate).
  split_and!; [exact (proj1 H1)|exact (proj2 H1)|exact (proj1 H2)|exact (proj2 H2)|].
  exact (proj1 (formatDate_same_day _ _ H1 H2)).
Defined.

(** X11: for dates of the years 0 to 9999, the order of the identifiers
    as strings is the order of the days. *)
Theorem formatDate_chronological t1 t2 :
  0 ≤ YearFromTime t1 ≤ 9999 → 0 ≤ YearFromTime t2 ≤ 9999 →
  string_le (formatDate t1) (formatDate t2) ↔ Day t1 ≤ Day t2.
Proof.
  intros Hy1 Hy2. rewrite !formatDate_dayId by done.
  pose proof (MonthFromTime_range t1). pose proof (MonthFromTime_range t2).
  pose proof (DateFromTime_range t1). pose proof (DateFromTime_range t2).
  unfold string_le, String.leb. rewrite dayId_compare by lia.
  destruct (Z.lt_trichotomy (Day t1) (Day t2)) as [Hlt|[Heq|Hgt]].
  - pose proof (dayNumber_lt t1 t2 Hlt) as Hn.
    apply Z.compare_lt_iff in Hn. rewrite Hn. split; [lia|done].
  - rewrite (YearFromTime_Day _ _ Heq), (MonthFromTime_Day _ _ Heq),
      (DateFromTime_Day _ _ Heq), Z.compare_refl. split; [lia|done].
  - pose proof (dayNumber_lt t2 t1 Hgt) as Hn.
    apply Z.compare_gt_iff in Hn. rewrite Hn. split; [done|lia].
Qed.

Lemma formatDate_chronological_witness :
  0 ≤ YearFromTime 1704499200000 ≤ 9999
  ∧ 0 ≤ YearFromTime 1741563000000 ≤ 9999
  ∧ (string_le (formatDate 1704499200000) (formatDate 1741563000000)
     ↔ Day 1704499200000 ≤ Day 1741563000000).
Proof.
  assert (H1 : 0 ≤ YearFromTime 1704499200000 ≤ 9999) by (vm_compute; split; discriminate).
  assert (H2 : 0 ≤ YearFromTime 1741563000000 ≤ 9999) by (vm_compute; split; discriminate).
  split_and!; [exact (proj1 H1)|exact (proj2 H1)|exact (proj1 H2)|exact (proj2 H2)|].
  exact (formatDate_chronological _ _ H1 H2).
Defined.

End DayIdentifiers.

(** ** Ranges of days and dates read back *)

Section DatesMore.
Local Open Scope Z_scope.

(** X12: in every time zone [getDateRange days] returns [days] dates,
    none for [days] below 1, and the last one is the current instant as
    its local time reads back. *)
Theorem getDateRange_length tz now days :
  length (getDateRange tz now days) = Z.to_nat days
  ∧ (0 < days → last (getDateRange tz now days) = Some (UTC tz (LocalTime tz now))).
Proof.
  destruct (decide (0 < days)) as [Hpos|Hneg].
  - assert (∃ n : nat, days = Z.of_nat (S n)) as [n ->]
      by (exists (Z.to_nat (days - 1)); lia).
    rewrite getDateRange_spec, Nat2Z.id. split.
    + by rewrite length_fmap, length_reverse, length_seq.
    + intros _. simpl seq. rewrite reverse_cons, fmap_app. cbn [fmap list_fmap].
      rewrite last_snoc, setDate_getDate. do 2 f_equal. simpl. lia.
  - split; [|lia]. unfold getDateRange.
    rewrite getDateRange_loop_neg by lia. simpl. lia.
Qed.

Lemma getDateRange_length_witness :
  0 < 7
  ∧ last (getDateRange newYorkSpring2025 1741563000000 7)
    = Some (UTC newYorkSpring2025 (LocalTime newYorkSpring2025 1741563000000)).
Proof.
  split; [lia|].
  apply (proj2 (getDateRange_length newYorkSpring2025 1741563000000 7)). lia.
Defined.

(** The identifiers of a range, where the offset from UTC is fixed. *)
Lemma dayRange_fixedZone_spec offset now (n : nat) :
  dayRange (fixedZone offset) now (Z.of_nat n)
  = (λ k : nat, formatDate (now - Z.of_nat k * msPerDay)) <$> reverse (seq 0 n).
Proof.
  unfold dayRange. rewrite getDateRange_spec, <-list_fmap_compose.
  apply list_fmap_ext. intros i k _. simpl. by rewrite setDate_fixedZone.
Qed.

Lemma year_in_range now (n k : nat) :
  (k < n)%nat →
  0 ≤ YearFromTime (now - (Z.of_nat n - 1) * msPerDay) →
  YearFromTime now ≤ 9999 →
  0 ≤ YearFromTime (now - Z.of_nat k * msPerDay) ≤ 9999.
Proof.
  intros Hk Hlo Hhi. split.
  - etrans; [exact Hlo|]. apply YearFromTime_mono. rewrite !Day_shift. lia.
  - etrans; [|exact Hhi]. apply YearFromTime_mono. rewrite Day_shift. lia.
Qed.

Lemma dayRange_sorted now (n m : nat) :
  (m ≤ n)%nat →
  0 ≤ YearFromTime (now - (Z.of_nat n - 1) * msPerDay) →
  YearFromTime now ≤ 9999 →
  Sorted string_le
    ((λ k : nat, formatDate (now - Z.of_nat k * msPerDay)) <$> reverse (seq 0 m)).
Proof.
  intros Hm Hlo Hhi. induction m as [|m IH]; [constructor|].
  rewrite seq_S, reverse_app. simpl. constructor; [apply IH; lia|].
  destruct m as [|m]; [constructor|].
  rewrite seq_S, reverse_app. simpl. constructor.
  apply formatDate_chronological_days; try (eapply year_in_range; [|done..]; lia).
  rewrite !Day_shift. lia.
Qed.

Lemma dayRange_NoDup offset now (n : nat) :
  0 ≤ YearFromTime (now - (Z.of_nat n - 1) * msPerDay) →
  YearFromTime now ≤ 9999 →
  NoDup (dayRange (fixedZone offset) now (Z.of_nat n)).
Proof.
  intros Hlo Hhi. rewrite dayRange_fixedZone_spec. apply NoDup_fmap_2_strong.
  - intros k1 k2 Hk1 Hk2 Heq.
    apply elem_of_reverse, elem_of_seq in Hk1, Hk2.
    apply formatDate_days in Heq; try (eapply year_in_range; [|done..]; lia).
    rewrite !Day_shift in Heq. lia.
  - rewrite reverse_Permutation. apply NoDup_seq.
Qed.

(** X13: where the offset from UTC is fixed and the dates are of the
    years 0 to 9999, [dayRange n] is the identifiers of [n] consecutive
    days in UTC, the oldest first and the last the one of today: they are
    distinct and in ascending order. *)
Theorem dayRange_fixedZone offset now (n : nat) :
  0 ≤ YearFromTime (now - (Z.of_nat n - 1) * msPerDay) →
  YearFromTime now ≤ 9999 →
  (∀ k, (k < n)%nat →
     ∃ date, getDateRange (fixedZone offset) now (Z.of_nat n) !! k = Some date
       ∧ Day date = Day now - (Z.of_nat n - 1 - Z.of_nat k)
       ∧ dayRange (fixedZone offset) now (Z.of_nat n) !! k = Some (formatDate date))
  ∧ ((0 < n)%nat →
     last (dayRange (fixedZone offset) now (Z.of_nat n)) = Some (today now))
  ∧ NoDup (dayRange (fixedZone offset) now (Z.of_nat n))
  ∧ Sorted string_le (dayRange (fixedZone offset) now (Z.of_nat n)).
Proof.
  intros Hlo Hhi. split_and!.
  - intros k Hk.
    pose proof (getDateRange_fixedZone offset now n k Hk) as Hd.
    destruct (getDateRange (fixedZone offset) now (Z.of_nat n) !! k) as [date|] eqn:Hdate;
      [|done].
    exists date. split_and!; [done|by injection Hd|].
    unfold dayRange. by rewrite list_lookup_fmap, Hdate.
  - intros Hn. rewrite dayRange_last by done.
    by rewrite setDate_fixedZone, Z.mul_0_l, Z.sub_0_r.
  - by apply dayRange_NoDup.
  - rewrite dayRange_fixedZone_spec. by apply (dayRange_sorted now n n).
Qed.

Lemma dayRange_fixedZone_witness :
  0 ≤ YearFromTime (1704542400000 - (Z.of_nat 7 - 1) * msPerDay)
  ∧ YearFromTime 1704542400000 ≤ 9999
  ∧ NoDup (dayRange (fixedZone 3600000) 1704542400000 (Z.of_nat 7)).
Proof.
  assert (H1 : 0 ≤ YearFromTime (1704542400000 - (Z.of_nat 7 - 1) * msPerDay))
    by (vm_compute; discriminate).
  assert (H2 : YearFromTime 1704542400000 ≤ 9999) by (vm_compute; discriminate).
  split_and!; [exact H1|exact H2|].
  exact (proj1 (proj2 (proj2 (dayRange_fixedZone 3600000 1704542400000 7 H1 H2)))).
Defined.

(** *** [parseDate] after [formatDate] *)

Lemma digitValue_digit n : 0 ≤ n < 10 → digitValue (digit n) = Some n.
Proof.
  intros Hn.
  assert (n = 0 ∨ n = 1 ∨ n = 2 ∨ n = 3 ∨ n = 4 ∨ n = 5 ∨ n = 6 ∨ n = 7
          ∨ n = 8 ∨ n = 9) as Hc by lia.
  destruct_or!; subst; reflexivity.
Qed.

Lemma digits2_digit a b rest :
  0 ≤ a < 10 → 0 ≤ b < 10 →
  digits2 (String (digit a) (String (digit b) rest)) = Some (10 * a + b, rest).
Proof. intros Ha Hb. unfold digits2. by rewrite !digitValue_digit by done. Qed.

Lemma DateFromTime_in_month t :
  DateFromTime t ≤ DaysInMonth (MonthFromTime t) (InLeapYear t).
Proof. pose proof (MonthFromTime_spec t). unfold DateFromTime. lia. Qed.

(** [parseDate] reads the identifier of a date as the midnight, in local
    time, that begins that day of the UTC calendar. *)
Lemma parseDate_formatDate_midnight tz t :
  0 ≤ YearFromTime t ≤ 9999 →
  parseDate tz (formatDate t) = Some (UTC tz (Day t * msPerDay)).
Proof.
  intros Hy. rewrite formatDate_dayId by done.
  pose proof (MonthFromTime_range t) as Hm. pose proof (DateFromTime_range t) as Hd.
  pose proof (DateFromTime_in_month t) as Hdm.
  destruct (digits_4 (YearFromTime t) ltac:(lia)) as (Ey & ? & ? & ? & ?).
  destruct (digits_2 (MonthFromTime t + 1) ltac:(lia)) as (Em & ? & ?).
  destruct (digits_2 (DateFromTime t) ltac:(lia)) as (Ed & ? & ?).
  unfold parseDate, dayId, Date_fromDateTime.
  rewrite !append_cons, !append_nil.
  rewrite digits2_digit by done. cbn [mbind option_bind].
  rewrite digits2_digit by done. cbn [mbind option_bind expect].
  rewrite decide_True by done. cbn [mbind option_bind].
  rewrite digits2_digit by done. cbn [mbind option_bind expect].
  rewrite decide_True by done. cbn [mbind option_bind].
  rewrite digits2_digit by done. cbn [mbind option_bind expect].
  rewrite decide_True by done. cbn [mbind option_bind].
  change (digits2 "00:00:00") with (Some (0, ":00:00"%string)).
  cbn [mbind option_bind expect]. rewrite decide_True by done. cbn [mbind option_bind].
  change (digits2 "00:00") with (Some (0, ":00"%string)).
  cbn [mbind option_bind expect]. rewrite decide_True by done. cbn [mbind option_bind].
  change (digits2 "00") with (Some (0, EmptyString)).
  cbn [mbind option_bind]. cbv zeta.
  replace (100 * (10 * (YearFromTime t `div` 1000)
                  + (YearFromTime t `div` 100) `mod` 10)
           + (10 * ((YearFromTime t `div` 10) `mod` 10) + YearFromTime t `mod` 10))
    with (YearFromTime t) by lia.
  rewrite <-Em, <-Ed. replace (MonthFromTime t + 1 - 1) with (MonthFromTime t) by lia.
  fold (InLeapYear t).
  rewrite bool_decide_eq_true_2 by done.
  destruct (Z.leb_spec 1 (MonthFromTime t + 1)); [|lia].
  destruct (Z.leb_spec (MonthFromTime t + 1) 12); [|lia].
  destruct (Z.leb_spec 1 (DateFromTime t)); [|lia].
  destruct (Z.leb_spec (DateFromTime t)
              (DaysInMonth (MonthFromTime t) (InLeapYear t))); [|lia].
  cbn [andb orb Z.leb Z.compare Z.eqb].
  do 2 f_equal. unfold MakeDate.
  replace (DateFromTime t) with (DateFromTime t - 0) by lia.
  rewrite MakeDay_DateFromTime. unfold msPerHour, msPerMinute, msPerSecond. lia.
Qed.

(** X14: [parseDate] does not always undo [formatDate].  For a date of a
    year from 0 to 9999 and a fixed offset from UTC of less than a day,
    [parseDate (formatDate t)] is the instant [offset] before the
    midnight that begins the UTC day of [t]: formatting it gives the
    identifier back where local time is not ahead of UTC, and a date of
    the day before where it is. *)
Theorem parseDate_formatDate offset t :
  0 ≤ YearFromTime t ≤ 9999 →
  - msPerDay < offset < msPerDay →
  parseDate (fixedZone offset) (formatDate t) = Some (Day t * msPerDay - offset)
  ∧ (offset ≤ 0 → formatDate (Day t * msPerDay - offset) = formatDate t)
  ∧ (0 < offset → Day (Day t * msPerDay - offset) = Day t - 1).
Proof.
  intros Hy Ho. rewrite parseDate_formatDate_midnight by done.
  assert (Hday : ∀ k, 0 ≤ k < msPerDay → Day (Day t * msPerDay + k) = Day t).
  { intros k Hk. unfold Day in *. unfold msPerDay in *.
    Z.div_mod_to_equations. lia. }
  split_and!.
  - done.
  - intros Hle.
    assert (Hd : Day (Day t * msPerDay - offset) = Day t).
    { replace (Day t * msPerDay - offset) with (Day t * msPerDay + (- offset)) by lia.
      apply Hday. lia. }
    rewrite !formatDate_dayId; [|done|by rewrite (YearFromTime_Day _ _ Hd)].
    by rewrite (YearFromTime_Day _ _ Hd), (MonthFromTime_Day _ _ Hd),
      (DateFromTime_Day _ _ Hd).
  - intros Hpos. unfold Day in *. unfold msPerDay in *.
    Z.div_mod_to_equations. lia.
Qed.

Lemma parseDate_formatDate_witness :
  0 ≤ YearFromTime 1704542400000 ≤ 9999
  ∧ - msPerDay < 7200000 < msPerDay
  ∧ parseDate (fixedZone 7200000) (formatDate 1704542400000)
    = Some (Day 1704542400000 * msPerDay - 7200000).
Proof.
  assert (H1 : 0 ≤ YearFromTime 1704542400000 ≤ 9999) by (vm_compute; split; discriminate).
  assert (H2 : - msPerDay < 7200000 < msPerDay) by (vm_compute; done).
  split_and!; [exact (proj1 H1)|exact (proj2 H1)|exact (proj1 H2)|exact (proj2 H2)|].
  exact (proj1 (parseDate_formatDate 7200000 1704542400000 H1 H2)).
Defined.

End DatesMore.

(** ** The grid of the last seven days *)

Section Grid.
Local Open Scope Z_scope.

Lemma toggleCompletion_lookup_completed habitId date habits j habit date' :
  habits !! j = Some habit →
  ∃ habit', toggleCompletion habitId date habits !! j = Some habit'
    ∧ id habit' = id habit
    ∧ completed habit' date'
      = if decide (id habit = habitId ∧ date = date')
        then negb (completed habit date') else completed habit date'.
Proof.
  intros Hj. unfold toggleCompletion. rewrite list_lookup_fmap, Hj. simpl.
  eexists. split; [done|].
  destruct (decide (id habit = habitId)) as [Hid|Hid].
  - split; [done|]. unfold completed at 1. cbn [completions].
    rewrite toggled_completed.
    destruct (decide (date = date')) as [->|Hd].
    + by rewrite decide_True.
    + rewrite decide_False; [done|]. by intros [_ ?].
  - split; [done|]. rewrite decide_False; [done|]. by intros [? _].
Qed.

Lemma cell_lookup tz now habits stats j l habit date :
  habits !! j = Some habit →
  getDateRange tz now 7 !! l = Some date →
  cell (HabitGrid_rows tz now habits stats) j l
  = Some (completed habit (formatDate date)).
Proof.
  intros Hj Hl. unfold cell, HabitGrid_rows, HabitRow_cells.
  rewrite list_lookup_fmap, Hj. simpl. by rewrite list_lookup_fmap, Hl.
Qed.

Lemma cell_is_Some tz now habits stats j l b :
  cell (HabitGrid_rows tz now habits stats) j l = Some b →
  ∃ habit date, habits !! j = Some habit
    ∧ getDateRange tz now 7 !! l = Some date.
Proof.
  unfold cell, HabitGrid_rows, HabitRow_cells.
  rewrite list_lookup_fmap.
  destruct (habits !! j) as [habit|]; [|done]. simpl.
  rewrite list_lookup_fmap.
  destruct (getDateRange tz now 7 !! l) as [date|]; [|done]. eauto.
Qed.

(** X15: a click on a cell of the grid, where the offset from UTC is
    fixed, the seven days are of the years 0 to 9999 and the habits have
    distinct ids: the cell clicked changes to its opposite, and every
    other cell of the grid stays as it is, whatever statistics are
    handed to the grid. *)
Theorem handleCellClick_flips_one_cell offset now habits stats stats'
    i k habit date :
  0 ≤ YearFromTime (now - 6 * msPerDay) →
  YearFromTime now ≤ 9999 →
  NoDup (id <$> habits) →
  habits !! i = Some habit →
  getDateRange (fixedZone offset) now 7 !! k = Some date →
  ∀ j l b,
    cell (HabitGrid_rows (fixedZone offset) now habits stats) j l = Some b →
    cell (HabitGrid_rows (fixedZone offset) now
            (handleCellClick habit date habits) stats') j l
    = Some (if decide (j = i ∧ l = k) then negb b else b).
Proof.
  intros Hlo Hhi Hnd Hi Hk j l b Hb.
  destruct (cell_is_Some _ _ _ _ _ _ _ Hb) as (habit_j & date_l & Hj & Hl).
  rewrite (cell_lookup _ _ _ _ _ _ _ _ Hj Hl) in Hb. injection Hb as <-.
  destruct (toggleCompletion_lookup_completed (id habit) (formatDate date)
              habits j habit_j (formatDate date_l) Hj) as (habit' & Hj' & _ & Hc).
  unfold handleCellClick. rewrite (cell_lookup _ _ _ _ _ _ _ _ Hj' Hl), Hc.
  f_equal.
  assert (Hids : id habit_j = id habit ↔ j = i).
  { split; [|intros ->; congruence].
    intros Hid. eapply NoDup_lookup; [exact Hnd|..].
    - by rewrite list_lookup_fmap, Hj.
    - by rewrite list_lookup_fmap, Hi, Hid. }
  assert (Hdates : formatDate date = formatDate date_l ↔ l = k).
  { split; [|intros ->; congruence].
    intros Hid. eapply NoDup_lookup; [apply (dayRange_NoDup offset now 7); done|..].
    - unfold dayRange. change (Z.of_nat 7) with 7. by rewrite list_lookup_fmap, Hl.
    - unfold dayRange. change (Z.of_nat 7) with 7.
      by rewrite list_lookup_fmap, Hk, <-Hid. }
  destruct (decide (j = i ∧ l = k)) as [[? ?]|Hn].
  - rewrite decide_True; [done|]. split; [by apply Hids|by apply Hdates].
  - rewrite decide_False; [done|]. intros [? ?]. apply Hn.
    split; [by apply Hids|by apply Hdates].
Qed.

Lemma handleCellClick_flips_one_cell_witness :
  cell (HabitGrid_rows (fixedZone 3600000) 1704542400000
          (handleCellClick scenarioC 1704542400000 [scenarioC]) ∅) 0 6
  = Some (negb (completed scenarioC (formatDate 1704542400000))).
Proof.
  assert (H1 : 0 ≤ YearFromTime (1704542400000 - 6 * msPerDay))
    by (vm_compute; discriminate).
  assert (H2 : YearFromTime 1704542400000 ≤ 9999) by (vm_compute; discriminate).
  assert (H3 : NoDup (id <$> [scenarioC])) by compute_done.
  assert (H4 : [scenarioC] !! 0%nat = Some scenarioC) by reflexivity.
  assert (H5 : getDateRange (fixedZone 3600000) 1704542400000 7 !! 6%nat
               = Some 1704542400000) by (vm_compute; reflexivity).
  assert (H6 : cell (HabitGrid_rows (fixedZone 3600000) 1704542400000
                       [scenarioC] ∅) 0 6
               = Some (completed scenarioC (formatDate 1704542400000)))
    by (vm_compute; reflexivity).
  exact (handleCellClick_flips_one_cell 3600000 1704542400000 [scenarioC] ∅ ∅
           0%nat 6%nat scenarioC 1704542400000 H1 H2 H3 H4 H5 0%nat 6%nat
           (completed scenarioC (formatDate 1704542400000)) H6).
Defined.

(** X16: the streak a row shows and its cells.  When the statistics are
    those of the instant at which the grid is drawn and the habits have
    distinct ids, the streak of a row is 1 when the last cell of the row,
    the one of today, is completed, and 0 when it is not, in every time
    zone and whatever the other cells are. *)
Theorem HabitGrid_streak_is_last_cell tz now habits j row :
  NoDup (id <$> habits) →
  HabitGrid_rows tz now habits (habitStats tz (λ _, now) habits) !! j
    = Some row →
  ∃ b : bool, last row.2 = Some b ∧ row.1 = if b then 1 else 0.
Proof.
  intros Hnd Hrow. unfold HabitGrid_rows in Hrow.
  rewrite list_lookup_fmap in Hrow.
  destruct (habits !! j) as [habit|] eqn:Hj; [|done].
  injection Hrow as <-. cbn [fst snd].
  unfold statOr0. rewrite (habitStats_NoDup _ _ _ Hnd _ _ Hj). cbn [from_option].
  change (currentStreak (getHabitStats tz now habit))
    with (calculateStreak tz now habit).
  rewrite calculateStreak_unfold.
  exists (completed habit (formatDate (setDate tz now (getDate tz now - 0)))).
  split; [|done].
  unfold HabitRow_cells. rewrite fmap_last.
  pose proof (dayRange_last tz now 7 ltac:(lia)) as Hlast.
  unfold dayRange in Hlast. rewrite fmap_last in Hlast.
  change (Z.of_nat 7) with 7 in Hlast.
  destruct (last (getDateRange tz now 7)) as [date|]; [|done].
  injection Hlast as Hlast. simpl. by rewrite Hlast.
Qed.

Lemma HabitGrid_streak_is_last_cell_witness :
  NoDup (id <$> [scenarioC])
  ∧ ∃ b : bool, last (HabitRow_cells scenarioC
                 (getDateRange newYorkAutumn2025 1762000000000 7)) = Some b
         ∧ statOr0 currentStreak 0
             (habitStats newYorkAutumn2025 (λ _, 1762000000000) [scenarioC])
             scenarioC
           = if b then 1 else 0.
Proof.
  assert (H : NoDup (id <$> [scenarioC])) by compute_done.
  split; [exact H|].
  exact (HabitGrid_streak_is_last_cell newYorkAutumn2025 1762000000000
           [scenarioC] 0%nat
           (statOr0 currentStreak 0
              (habitStats newYorkAutumn2025 (λ _, 1762000000000) [scenarioC])
              scenarioC,
            HabitRow_cells scenarioC
              (getDateRange newYorkAutumn2025 1762000000000 7))
           H eq_refl).
Defined.

(** X17: a habit starts from nothing.  After [addHabit] the statistics
    filed under the new id are all 0 (the rate of no day is 0, not a
    division by zero), also where an older habit already had that id, and
    the row of the new habit, the last one of the grid, shows no streak
    and seven cells that are not completed. *)
Theorem addHabit_starts_empty tz clock now habits idClock createdClock
    name emoji color :
  habitStats tz clock (addHabit idClock createdClock name emoji color habits)
    !! Number_toString idClock
  = Some (mkHabitStats 0 0 (inject_Z 0) 0)
  ∧ last (HabitGrid_rows tz now
            (addHabit idClock createdClock name emoji color habits)
            (habitStats tz clock
               (addHabit idClock createdClock name emoji color habits)))
    = Some (0, replicate 7 false).
Proof.
  assert (Hstats :
    habitStats tz clock (addHabit idClock createdClock name emoji color habits)
      !! Number_toString idClock
    = Some (mkHabitStats 0 0 (inject_Z 0) 0)).
  { unfold addHabit. rewrite habitStats_snoc. cbn [id].
    rewrite lookup_insert_eq.
    unfold getHabitStats. rewrite calculateStreak_unfold. reflexivity. }
  split; [done|].
  unfold HabitGrid_rows. rewrite fmap_last.
  unfold statOr0.
  replace (last (addHabit idClock createdClock name emoji color habits))
    with (Some (mkHabit (Number_toString idClock) name emoji color
                  (formatDate createdClock) ∅))
    by (unfold addHabit; by rewrite last_snoc).
  cbn [fmap option_fmap option_map id]. rewrite Hstats. cbn [from_option currentStreak].
  assert (Hcells : HabitRow_cells
            (mkHabit (Number_toString idClock) name emoji color
               (formatDate createdClock) ∅) (getDateRange tz now 7)
          = replicate 7 false); [|by rewrite Hcells].
  unfold HabitRow_cells.
  rewrite (const_fmap _ (getDateRange tz now 7) false) by done.
  change 7 with (Z.of_nat 7) at 1.
  by rewrite getDateRange_spec, length_fmap, length_reverse, length_seq.
Qed.

End Grid.
